(** * LC_Fetch: the bulk collection scripts, embedded and verified

    The development follows the five Python scripts of the repository:

    - [Py]: the fragment of Python's dynamic semantics the scripts rely on
      (values decoded from JSON, insertion-ordered dicts, exceptions,
      [str.strip], [sorted]);
    - [Csv]: rows as [csv.DictReader] yields them and [csv.DictWriter]
      consumes them;
    - [SchoolFetcher]: [user_school_leetcode_fetcher.py] (thread pool);
    - [DetailFetcher]: [user_detail_leetcode_fetcher.py] (sequential bulk
      fetch merged with the input rows);
    - [DetailById]: [user_detail_by_id.py] (one lookup, its parser and
      [save_to_csv]);
    - [Scraper]: [leetcode_scraper.py] (page loop);
    - [Search]: [script.py] (searching and exporting the loaded users). *)

From Stdlib Require Import ZArith Ascii OrderedTypeEx.
From stdpp Require Import base option list strings gmap sorting.

Local Open Scope Z_scope.
Set Warnings "-register-all,-clear-no-such-hyp".

(** ** Python values, dicts and exceptions *)
Module Py.

(** The exception classes the scripts can meet.  The four
    [requests.exceptions] classes derive from [RequestException]; every
    class below derives from [Exception]. *)
Inductive exn : Set :=
  | AttributeError
  | TypeError
  | KeyError
  | ValueError
  | JSONDecodeError          (* json.JSONDecodeError *)
  | WebDriverException       (* selenium *)
  | ConnectionError          (* requests.exceptions.ConnectionError *)
  | Timeout                  (* requests.exceptions.Timeout *)
  | RetryError               (* requests.exceptions.RetryError *)
  | HTTPError                (* requests.exceptions.HTTPError *)
  | RequestsJSONDecodeError. (* requests.exceptions.JSONDecodeError *)

Definition is_RequestException (e : exn) : bool :=
  match e with
  | ConnectionError | Timeout | RetryError | HTTPError
  | RequestsJSONDecodeError => true
  | _ => false
  end.

(** A computation that returns a value or raises. *)
Inductive result (A : Type) : Type :=
  | Ok (a : A)
  | Raise (e : exn).
Arguments Ok {A} a.
Arguments Raise {A} e.

#[global] Instance result_ret : MRet result := fun _ a => Ok a.
#[global] Instance result_bind : MBind result := fun _ _ f m =>
  match m with
  | Ok a => f a
  | Raise e => Raise e
  end.

Definition raised {A} (m : result A) : bool :=
  match m with Ok _ => false | Raise _ => true end.

(** A [for] loop that updates [acc] and stops at the first exception. *)
Fixpoint foldlM {A B} (f : A -> B -> result A) (acc : A) (l : list B)
    : result A :=
  match l with
  | [] => Ok acc
  | x :: l' => acc' ← f acc x; foldlM f acc' l'
  end.

(** What [json.loads] builds.  Numbers are kept as integers: the scripts
    only test them for truth and pass them through. *)
Inductive value : Type :=
  | VNone
  | VBool (b : bool)
  | VInt (n : Z)
  | VStr (s : string)
  | VList (l : list value)
  | VDict (d : list (string * value)).

(** A dict is its list of items in insertion order; lookup takes the first
    binding of a key. *)
Abbreviation dict := (list (string * value)).

Fixpoint dict_lookup (d : dict) (k : string) : option value :=
  match d with
  | [] => None
  | (k', v) :: d' => if decide (k' = k) then Some v else dict_lookup d' k
  end.

(** [d[k] = v]: an existing key keeps its position, a new one goes last. *)
Fixpoint dict_set (d : dict) (k : string) (v : value) : dict :=
  match d with
  | [] => [(k, v)]
  | (k', v') :: d' =>
      if decide (k' = k) then (k', v) :: d' else (k', v') :: dict_set d' k v
  end.

(** [{**d1, **d2}]. *)
Definition dict_merge (d1 d2 : dict) : dict :=
  foldl (fun acc kv => dict_set acc kv.1 kv.2) d1 d2.

Definition dict_keys (d : dict) : list string := d.*1.

(** [bool(v)]. *)
Definition truthy (v : value) : bool :=
  match v with
  | VNone => false
  | VBool b => b
  | VInt n => negb (n =? 0)
  | VStr s => negb (bool_decide (s = ""))
  | VList l => negb (bool_decide (length l = 0%nat))
  | VDict d => negb (bool_decide (length d = 0%nat))
  end.

(** [v.get(k, dflt)]: only dicts have [get]. *)
Definition get (v : value) (k : string) (dflt : value) : result value :=
  match v with
  | VDict d => Ok (default dflt (dict_lookup d k))
  | _ => Raise AttributeError
  end.

(** [v.items()]. *)
Definition items (v : value) : result dict :=
  match v with
  | VDict d => Ok d
  | _ => Raise AttributeError
  end.

(** The characters of a string: a UTF-8 continuation byte (10xxxxxx)
    belongs to the character before it. *)
Definition is_continuation (c : ascii) : bool :=
  match c with
  | Ascii _ _ _ _ _ _ false true => true
  | _ => false
  end.

Fixpoint chars_aux (s : string) : string * list string :=
  match s with
  | EmptyString => (EmptyString, [])
  | String c s' =>
      let '(pend, cs) := chars_aux s' in
      if is_continuation c then (String c pend, cs)
      else (EmptyString, String c pend :: cs)
  end.

Definition chars (s : string) : list string :=
  let '(pend, cs) := chars_aux s in
  match pend with EmptyString => cs | _ => pend :: cs end.

(** [for x in v]: lists yield their elements, dicts their keys, strings
    their characters; the rest is not iterable. *)
Definition iter (v : value) : result (list value) :=
  match v with
  | VList l => Ok l
  | VDict d => Ok (VStr <$> dict_keys d)
  | VStr s => Ok (VStr <$> chars s)
  | _ => Raise TypeError
  end.

(** [s1 in s2] on strings. *)
Fixpoint is_prefix (p s : string) : bool :=
  match p, s with
  | EmptyString, _ => true
  | String a p', String b s' => bool_decide (a = b) && is_prefix p' s'
  | String _ _, EmptyString => false
  end.

Fixpoint is_substring (p s : string) : bool :=
  is_prefix p s ||
  match s with
  | EmptyString => false
  | String _ s' => is_substring p s'
  end.

Definition is_str (k : string) (v : value) : bool :=
  match v with VStr s => bool_decide (s = k) | _ => false end.

(** [k in v] for a string [k]. *)
Definition contains (k : string) (v : value) : result bool :=
  match v with
  | VDict d => Ok (bool_decide (is_Some (dict_lookup d k)))
  | VList l => Ok (existsb (is_str k) l)
  | VStr s => Ok (is_substring k s)
  | _ => Raise TypeError
  end.

(** [v[k]] for a string [k]. *)
Definition getitem (v : value) (k : string) : result value :=
  match v with
  | VDict d =>
      match dict_lookup d k with
      | Some x => Ok x
      | None => Raise KeyError
      end
  | _ => Raise TypeError
  end.

(** [len(v)]. *)
Definition len (v : value) : result Z :=
  match v with
  | VList l => Ok (Z.of_nat (length l))
  | VDict d => Ok (Z.of_nat (length d))
  | VStr s => Ok (Z.of_nat (length (chars s)))
  | _ => Raise TypeError
  end.

(** [v[:n]]: lists and strings can be sliced; a dict has no slice key
    ([KeyError] since Python 3.12, [TypeError] before). *)
Definition slice_to (n : nat) (v : value) : result value :=
  match v with
  | VList l => Ok (VList (take n l))
  | VStr s => Ok (VStr (foldr String.app "" (take n (chars s))))
  | VDict _ => Raise KeyError
  | _ => Raise TypeError
  end.

(** [sep.join(xs)]: every element must be a string. *)
Fixpoint join_strs (sep : string) (xs : list string) : string :=
  match xs with
  | [] => ""
  | [x] => x
  | x :: xs' => x +:+ sep +:+ join_strs sep xs'
  end.

Fixpoint all_strs (xs : list value) : result (list string) :=
  match xs with
  | [] => Ok []
  | VStr s :: xs' => ss ← all_strs xs'; Ok (s :: ss)
  | _ :: _ => Raise TypeError
  end.

Definition join (sep : string) (v : value) : result string :=
  xs ← iter v; ss ← all_strs xs; Ok (join_strs sep ss).

(** *** [str.strip()] *)

Definition bytes (l : list nat) : string :=
  foldr (fun n s => String (ascii_of_nat n) s) EmptyString l.

(** The characters [str.isspace] accepts, in UTF-8: U+0009..U+000D,
    U+001C..U+0020, U+0085, U+00A0, U+1680, U+2000..U+200A, U+2028, U+2029,
    U+202F, U+205F and U+3000. *)
Definition whitespace : list string :=
  (bytes <$> [[9]; [10]; [11]; [12]; [13]; [28]; [29]; [30]; [31]; [32];
              [194; 133]; [194; 160]; [225; 154; 128]])%nat
  ++ ((fun n : nat => bytes [226; 128; n]%nat) <$> seq 128 11)
  ++ (bytes <$> [[226; 128; 168]; [226; 128; 169]; [226; 128; 175];
                 [226; 129; 159]; [227; 128; 128]])%nat.

Definition is_space (c : string) : bool := bool_decide (c ∈ whitespace).

Fixpoint drop_while {A} (f : A -> bool) (l : list A) : list A :=
  match l with
  | [] => []
  | x :: l' => if f x then drop_while f l' else l
  end.

Definition unchars (cs : list string) : string := foldr String.app "" cs.

Definition strip (s : string) : string :=
  unchars (reverse (drop_while is_space
            (reverse (drop_while is_space (chars s))))).

(** *** [sorted] on strings

    Python compares strings by code point; on UTF-8 that is the bytewise
    lexicographic order of [String.compare]. *)
Definition str_le (s1 s2 : string) : Prop := String.leb s1 s2 = true.

#[global] Instance str_le_dec : RelDecision str_le.
Proof. intros s1 s2. unfold str_le. apply _. Defined.

Definition sorted (l : list string) : list string := merge_sort str_le l.

End Py.

Import Py.

(** ** The [csv] module *)
Module Csv.

(** A row as [csv.DictReader] yields it: every header field is a key; the
    value is the cell's text, or [None] when the line is too short to have
    that cell.  Lines longer than the header are outside the model: for
    such a line [DictReader] adds the list of surplus cells under the key
    [None], which this type, with its string keys, cannot hold.  What is
    proved about rows is proved for files without such lines. *)
Abbreviation row := (list (string * option string)).

Fixpoint row_lookup (r : row) (k : string) : option (option string) :=
  match r with
  | [] => None
  | (k', v) :: r' => if decide (k' = k) then Some v else row_lookup r' k
  end.

Definition cell (v : option string) : value :=
  match v with
  | Some s => VStr s
  | None => VNone
  end.

(** The row as the Python dict it is. *)
Definition to_dict (r : row) : dict := prod_map id cell <$> r.

(** [csv.DictWriter(f, fieldnames=...)], with its defaults [restval=""]
    and [extrasaction="raise"]. *)
Definition restval : value := VStr "".

Definition project (fieldnames : list string) (d : dict) : list value :=
  (fun k => default restval (dict_lookup d k)) <$> fieldnames.

Definition dict_to_list (fieldnames : list string) (d : dict)
    : result (list value) :=
  if forallb (fun k => bool_decide (k ∈ fieldnames)) (dict_keys d)
  then Ok (project fieldnames d)
  else Raise ValueError.

Record table : Type := Table {
  columns : list string;
  lines : list (list value)
}.

(** The cell of line [i] under column [k]. *)
Definition field (t : table) (i : nat) (k : string) : option value :=
  line ← lines t !! i;
  jc ← list_find (fun c => c = k) (columns t);
  line !! jc.1.

(** [writer.writeheader(); writer.writerows(ds)]. *)
Definition write (fieldnames : list string) (ds : list dict) : result table :=
  ls ← mapM (dict_to_list fieldnames) ds; Ok (Table fieldnames ls).

End Csv.

(** ** The [requests] calls *)
Module Requests.

(** What one [post] does: it raises, or it returns a response with a status
    code and a body; the body is [None] when it is not JSON. *)
Inductive post_result : Type :=
  | PostRaises (e : exn)
  | Response (status_code : Z) (body : option value).

Definition post (r : post_result) : result (Z * option value) :=
  match r with
  | PostRaises e => Raise e
  | Response status_code body => Ok (status_code, body)
  end.

(** [response.raise_for_status()]. *)
Definition raise_for_status (status_code : Z) : result unit :=
  if (400 <=? status_code) && (status_code <? 600) then Raise HTTPError
  else Ok tt.

(** [response.json()]; the error class is that of requests 2.27 and
    later, where it derives from [RequestException]. *)
Definition json (body : option value) : result value :=
  match body with
  | Some v => Ok v
  | None => Raise RequestsJSONDecodeError
  end.

End Requests.

Import Requests.

(** ** user_school_leetcode_fetcher.py *)
Module SchoolFetcher.

Definition placeholder (user_slug : string) : dict :=
  [("user_slug", VStr user_slug); ("username", VStr ""); ("school", VStr "")].

(** The first three statements of the [try] in [fetch_user], up to
    [data = response.json().get("data", {}).get("matchedUser")]. *)
Definition matched_user (r : post_result) : result value :=
  response ← post r;
  _ ← raise_for_status response.1;
  body ← json response.2;
  d ← get body "data" (VDict []);
  get d "matchedUser" VNone.

(** The body of the [try] in [fetch_user]. *)
Definition fetch_user_try (r : post_result) (user_slug : string)
    : result dict :=
  data ← matched_user r;
  if negb (truthy data) then Ok (placeholder user_slug)
  else
    username ← get data "username" (VStr "");
    profile ← get data "profile" (VDict []);
    school ← get profile "school" (VStr "");
    Ok [("user_slug", VStr user_slug); ("username", username);
        ("school", school)].

(** [fetch_user]: [except Exception] turns every error into the
    placeholder. *)
Definition fetch_user (r : post_result) (user_slug : string) : dict :=
  match fetch_user_try r user_slug with
  | Ok d => d
  | Raise _ => placeholder user_slug
  end.

(** [[r.get("user_slug", "").strip() for r in reader if r.get("user_slug")]]:
    the filter tests the cell as read, the strip comes after. *)
Definition user_slugs (rows : list Csv.row) : list string :=
  omap (fun r =>
          match Csv.row_lookup r "user_slug" with
          | Some (Some s) => if truthy (VStr s) then Some (strip s) else None
          | _ => None
          end) rows.

(** The thread pool.  [net i slug] is what the POST of the [i]-th submitted
    task meets.  [futures] lists the tasks in submission order, each with
    its slug and the value [future.result()] gives. *)
Definition futures (net : nat -> string -> post_result)
    (user_slugs : list string) : list (string * dict) :=
  imap (fun i slug => (slug, fetch_user (net i slug) slug)) user_slugs.

(** [as_completed] yields every future once, in the order the scheduler
    completes them: some permutation of the submission indices. *)
Definition completion_order (n : nat) (order : list nat) : Prop :=
  order ≡ₚ seq 0 n.

(** The [for] loop over [as_completed(futures)]: [results] after it. *)
Definition collect (futs : list (string * dict)) (order : list nat)
    : list dict :=
  omap (fun i => snd <$> futs !! i) order.

Definition fieldnames : list string := ["user_slug"; "username"; "school"].

Inductive outcome : Type :=
  | Saved (t : Csv.table)
  | NoData
  | Failed (e : exn).

(** [results] at the end of the pool block of [process_csv]. *)
Definition results (net : nat -> string -> post_result)
    (rows : list Csv.row) (order : list nat) : list dict :=
  collect (futures net (user_slugs rows)) order.

(** [process_csv], for an input file that exists: what becomes of the
    output file.  An exception would leave the function ([Failed]). *)
Definition process_csv (net : nat -> string -> post_result)
    (rows : list Csv.row) (order : list nat) : outcome :=
  match results net rows order with
  | [] => NoData
  | rs =>
      match Csv.write fieldnames rs with
      | Ok t => Saved t
      | Raise e => Failed e
      end
  end.

End SchoolFetcher.

(** ** user_detail_leetcode_fetcher.py *)
Module DetailFetcher.

(** The body of the [try] in [fetch_leetcode_user_data]; Python's [None]
    is [VNone]. *)
Definition fetch_try (r : post_result) : result value :=
  response ← post r;
  _ ← raise_for_status response.1;
  data ← json response.2;
  d ← get data "data" (VDict []);
  matched ← get d "matchedUser" VNone;
  match matched with
  | VNone => Ok VNone
  | _ => d' ← getitem data "data"; getitem d' "matchedUser"
  end.

(** [fetch_leetcode_user_data]: only [requests.exceptions.RequestException]
    is caught; any other exception leaves the function. *)
Definition fetch_leetcode_user_data (r : post_result) : result value :=
  match fetch_try r with
  | Ok v => Ok v
  | Raise e => if is_RequestException e then Ok VNone else Raise e
  end.

Section parse.

(** [str.lower]: the Unicode case mapping is a parameter of the model. *)
Variable lower : string -> string.

(** [v.lower()]. *)
Definition lower_of (v : value) : result string :=
  match v with
  | VStr s => Ok (lower s)
  | _ => Raise AttributeError
  end.

(** ["; ".join(profile.get(k, [])) if profile.get(k) else ""]. *)
Definition joined (profile : value) (k : string) : result value :=
  c ← get profile k VNone;
  if truthy c then
    xs ← get profile k (VList []);
    s ← join "; " xs;
    Ok (VStr s)
  else Ok (VStr "").

(** One [if submit_stats.get(k): for item in submit_stats[k]: ...] block;
    [suffix] is ["_solved"] or ["_total_submissions"]. *)
Definition add_counts (submit_stats : value) (k suffix : string)
    (parsed : dict) : result dict :=
  c ← get submit_stats k VNone;
  if truthy c then
    l ← getitem submit_stats k;
    its ← iter l;
    foldlM (fun parsed item =>
              difficulty ← get item "difficulty" (VStr "Unknown");
              count ← get item "count" (VInt 0);
              low ← lower_of difficulty;
              Ok (dict_set parsed (low +:+ suffix) count))
           parsed its
  else Ok parsed.

Definition parse_user_data (user_data : value) : result dict :=
  if negb (truthy user_data) then Ok []
  else
    profile ← get user_data "profile" (VDict []);
    submit_stats ← get user_data "submitStats" (VDict []);
    username ← get user_data "username" (VStr "");
    real_name ← get profile "realName" (VStr "");
    country ← get profile "countryName" (VStr "");
    company ← get profile "company" (VStr "");
    school_college ← get profile "school" (VStr "");
    ranking ← get profile "ranking" (VStr "");
    reputation ← get profile "reputation" (VStr "");
    star_rating ← get profile "starRating" (VStr "");
    about_me ← get profile "aboutMe" (VStr "");
    birthday ← get profile "birthday" (VStr "");
    avatar ← get profile "userAvatar" (VStr "");
    websites ← joined profile "websites";
    skill_tags ← joined profile "skillTags";
    let parsed : dict :=
      [("username", username); ("real_name", real_name);
       ("country", country); ("company", company);
       ("school_college", school_college); ("ranking", ranking);
       ("reputation", reputation); ("star_rating", star_rating);
       ("about_me", about_me); ("birthday", birthday); ("avatar", avatar);
       ("websites", websites); ("skill_tags", skill_tags)] in
    parsed ← add_counts submit_stats "acSubmissionNum" "_solved" parsed;
    parsed ← add_counts submit_stats "totalSubmissionNum"
               "_total_submissions" parsed;
    badges ← get user_data "badges" (VList []);
    total_badges ← len badges;
    let parsed := dict_set parsed "total_badges" (VInt total_badges) in
    first ← slice_to 10 badges;
    bs ← iter first;
    names ← mapM (fun b => get b "displayName" (VStr "")) bs;
    badge_names ← join "; " (VList names);
    let parsed := dict_set parsed "badge_names" (VStr badge_names) in
    active_badge ← get user_data "activeBadge" VNone;
    if truthy active_badge then
      name ← get active_badge "displayName" (VStr "");
      Ok (dict_set parsed "active_badge" name)
    else Ok (dict_set parsed "active_badge" (VStr "")).

(** [row.get('user_slug', '').strip()]: a [None] cell has no [strip]. *)
Definition slug_of (row : Csv.row) : result string :=
  match Csv.row_lookup row "user_slug" with
  | None => Ok (strip "")
  | Some (Some s) => Ok (strip s)
  | Some None => Raise AttributeError
  end.

(** The fields every parsed profile starts with. *)
Definition profile_columns : list string :=
  ["username"; "real_name"; "country"; "company"; "school_college";
   "ranking"; "reputation"; "star_rating"; "about_me"; "birthday";
   "avatar"; "websites"; "skill_tags"].

(** The shape [parse_user_data] keeps while it adds fields: no repeated
    name, the thirteen profile fields first. *)
Definition profile_shape (parsed : dict) : Prop :=
  NoDup (dict_keys parsed)
  /\ (13 <= length (dict_keys parsed))%nat
  /\ take 13 (dict_keys parsed) = profile_columns.

(** The rows the loop does not skip. *)
Definition has_slug (row : Csv.row) : bool :=
  match slug_of row with
  | Ok user_slug => truthy (VStr user_slug)
  | Raise _ => false
  end.

(** What one row with a slug contributes to [all_user_data]. *)
Definition combine (row : Csv.row) (user_data : value) : result dict :=
  if truthy user_data then
    parsed_data ← parse_user_data user_data;
    Ok (dict_merge (Csv.to_dict row) parsed_data)
  else Ok (Csv.to_dict row).

(** The [for idx, row in enumerate(rows, 1)] loop.  [net i slug] is what
    the POST issued for the row at position [i] meets.  The result pairs
    the slugs a fetch was issued for, in order, with [all_user_data] (or
    the exception that left the loop). *)
Fixpoint collect (net : nat -> string -> post_result) (i : nat)
    (rows : list Csv.row) : list string * result (list dict) :=
  match rows with
  | [] => ([], Ok [])
  | row :: rest =>
      match slug_of row with
      | Raise e => ([], Raise e)
      | Ok user_slug =>
          if negb (truthy (VStr user_slug)) then collect net (S i) rest
          else
            match fetch_leetcode_user_data (net i user_slug)
                    ≫= combine row with
            | Raise e => ([user_slug], Raise e)
            | Ok d =>
                let '(fetched, r) := collect net (S i) rest in
                (user_slug :: fetched, ds ← r; Ok (d :: ds))
            end
      end
  end.

(** The set of all keys, then [sorted(list(all_fieldnames))]. *)
Definition all_fieldnames (all_user_data : list dict) : gset string :=
  foldl (fun names data => names ∪ list_to_set (dict_keys data)) ∅
        all_user_data.

Definition fieldnames (all_user_data : list dict) : list string :=
  sorted (elements (all_fieldnames all_user_data)).

Inductive outcome : Type :=
  | Saved (t : Csv.table)
  | NoData
  | Failed (e : exn).

(** [process_csv_file] for an input file that exists: the slugs fetched
    and what became of the output file.  [Failed] is the
    [except Exception] branch, which writes nothing. *)
Definition process_csv_file (net : nat -> string -> post_result)
    (rows : list Csv.row) : list string * outcome :=
  let '(fetched, r) := collect net 0 rows in
  (fetched,
   match r with
   | Raise e => Failed e
   | Ok [] => NoData
   | Ok all_user_data =>
       match Csv.write (fieldnames all_user_data) all_user_data with
       | Ok t => Saved t
       | Raise e => Failed e
       end
   end).

End parse.

End DetailFetcher.

(** ** user_detail_by_id.py *)
Module DetailById.

(** The columns and the line [save_to_csv] writes for one parsed record. *)
Definition fieldnames (parsed_data : dict) : list string :=
  sorted (dict_keys parsed_data).

Definition save_to_csv (parsed_data : dict) : option Csv.table :=
  match Csv.write (fieldnames parsed_data) [parsed_data] with
  | Ok t => Some t
  | Raise _ => None
  end.

(** [fetch_user_data]: the first statements of its [try] are those of
    [fetch_user] in the school fetcher; a falsy [matchedUser] and every
    exception give [None]. *)
Definition fetch_user_data (r : post_result) : value :=
  match SchoolFetcher.matched_user r with
  | Ok data => if negb (truthy data) then VNone else data
  | Raise _ => VNone
  end.

(** [x or []]. *)
Definition or_empty (v : value) : value :=
  if truthy v then v else VList [].

Section parse.

Variable lower : string -> string.

(** ["; ".join(profile.get(k, []) or [])]. *)
Definition joined (profile : value) (k : string) : result value :=
  xs ← get profile k (VList []);
  s ← join "; " (or_empty xs);
  Ok (VStr s).

(** One [for item in submit_stats.get(k, []): ...] loop. *)
Definition add_counts (submit_stats : value) (k suffix : string)
    (parsed : dict) : result dict :=
  l ← get submit_stats k (VList []);
  its ← iter l;
  foldlM (fun parsed item =>
            d ← getitem item "difficulty";
            difficulty ← DetailFetcher.lower_of lower d;
            count ← getitem item "count";
            Ok (dict_set parsed (difficulty +:+ suffix) count))
         parsed its.

Definition parse_user_data (user : value) : result dict :=
  profile ← get user "profile" (VDict []);
  submit_stats ← get user "submitStats" (VDict []);
  username ← get user "username" (VStr "");
  real_name ← get profile "realName" (VStr "");
  country ← get profile "countryName" (VStr "");
  company ← get profile "company" (VStr "");
  school_college ← get profile "school" (VStr "");
  ranking ← get profile "ranking" (VStr "");
  reputation ← get profile "reputation" (VStr "");
  star_rating ← get profile "starRating" (VStr "");
  about_me ← get profile "aboutMe" (VStr "");
  birthday ← get profile "birthday" (VStr "");
  avatar ← get profile "userAvatar" (VStr "");
  websites ← joined profile "websites";
  skill_tags ← joined profile "skillTags";
  let parsed : dict :=
    [("username", username); ("real_name", real_name);
     ("country", country); ("company", company);
     ("school_college", school_college); ("ranking", ranking);
     ("reputation", reputation); ("star_rating", star_rating);
     ("about_me", about_me); ("birthday", birthday); ("avatar", avatar);
     ("websites", websites); ("skill_tags", skill_tags)] in
  parsed ← add_counts submit_stats "acSubmissionNum" "_solved" parsed;
  parsed ← add_counts submit_stats "totalSubmissionNum"
             "_total_submissions" parsed;
  badges ← get user "badges" (VList []);
  total_badges ← len badges;
  let parsed := dict_set parsed "total_badges" (VInt total_badges) in
  first ← slice_to 10 badges;
  bs ← iter first;
  names ← mapM (fun b => get b "displayName" (VStr "")) bs;
  badge_names ← join "; " (VList names);
  let parsed := dict_set parsed "badge_names" (VStr badge_names) in
  active_badge ← get user "activeBadge" VNone;
  if truthy active_badge then
    name ← get active_badge "displayName" (VStr "");
    Ok (dict_set parsed "active_badge" name)
  else Ok (dict_set parsed "active_badge" (VStr "")).

End parse.

(** [s.endswith(suffix)]. *)
Fixpoint ends_with (suffix s : string) : bool :=
  bool_decide (s = suffix)
  || match s with
     | EmptyString => false
     | String _ s' => ends_with suffix s'
     end.

(** The file name [main] passes to [save_to_csv] for what the user typed
    at the prompt; [""] stands for [None], the auto-generated name. *)
Definition custom_name (typed : string) : string :=
  let custom_name := strip typed in
  if truthy (VStr custom_name) && negb (ends_with ".csv" custom_name)
  then custom_name +:+ ".csv"
  else custom_name.

End DetailById.

(** ** leetcode_scraper.py *)
Module Scraper.

(** What loading one ranking page in the browser gives: the driver raises,
    the body text is not JSON, or it decodes to a value. *)
Inductive page_load : Type :=
  | LoadRaises (e : exn)
  | NotJson
  | Json (v : value).

(** The site as the run sees it: page number and region to what loading
    that URL gives. *)
Abbreviation browser := (Z -> string -> page_load).

(** [fetch_page_data]: both handlers return [None]. *)
Definition fetch_page_data (site : browser) (page : Z) (region : string)
    : value :=
  match site page region with
  | Json data => data
  | NotJson => VNone
  | LoadRaises _ => VNone
  end.

(** The body of [for problem_id, sub_info in submissions.items()]. *)
Definition add_submission (user_data : dict) (sub : string * value)
    : result dict :=
  let '(problem_id, sub_info) := sub in
  let key suffix := "problem_" +:+ problem_id +:+ suffix in
  date ← get sub_info "date" VNone;
  let user_data := dict_set user_data (key "_date") date in
  fail_count ← get sub_info "fail_count" VNone;
  let user_data := dict_set user_data (key "_fail_count") fail_count in
  lang ← get sub_info "lang" VNone;
  let user_data := dict_set user_data (key "_lang") lang in
  submission_id ← get sub_info "submission_id" VNone;
  Ok (dict_set user_data (key "_submission_id") submission_id).

(** The body of [for user in data['total_rank']]. *)
Definition parse_user (user : value) : result dict :=
  rank ← get user "rank" VNone;
  username ← get user "username" VNone;
  user_slug ← get user "user_slug" VNone;
  country_code ← get user "country_code" VNone;
  country_name ← get user "country_name" VNone;
  score ← get user "score" VNone;
  finish_time ← get user "finish_time" VNone;
  data_region ← get user "data_region" VNone;
  contest_id ← get user "contest_id" VNone;
  let user_data : dict :=
    [("rank", rank); ("username", username); ("user_slug", user_slug);
     ("country_code", country_code); ("country_name", country_name);
     ("score", score); ("finish_time", finish_time);
     ("data_region", data_region); ("contest_id", contest_id)] in
  submissions ← get user "submissions" (VDict []);
  subs ← items submissions;
  foldlM add_submission user_data subs.

Definition parse_ranking_data (data : value) : result (list dict) :=
  if negb (truthy data) then Ok []
  else
    present ← contains "total_rank" data;
    if negb present then Ok []
    else
      total_rank ← getitem data "total_rank";
      users ← iter total_rank;
      mapM parse_user users.

(** What the run does to the outside, in order. *)
Inductive event : Set :=
  | Get (page : Z)   (* driver.get of the page's URL *)
  | Sleep.           (* time.sleep(delay) *)

(** [range(a, b)]. *)
Definition range (a b : Z) : list Z := seqZ a (b - a).

(** The columns every ranking record starts with. *)
Definition base_columns : list string :=
  ["rank"; "username"; "user_slug"; "country_code"; "country_name";
   "score"; "finish_time"; "data_region"; "contest_id"].

(** A user entry of the shape [parse_user] expects: an object whose
    [submissions], if any, is an object of objects. *)
Definition is_dict (v : value) : bool :=
  match v with VDict _ => true | _ => false end.

Definition shaped_user (user : value) : bool :=
  match user with
  | VDict u =>
      match dict_lookup u "submissions" with
      | None => true
      | Some (VDict subs) => forallb (fun sub => is_dict sub.2) subs
      | Some _ => false
      end
  | _ => false
  end.

(** What the submission columns leave untouched in a record that started
    from [r0]: its first nine columns and every column whose name does not
    start with [problem_]. *)
Definition keeps_base (r0 r : dict) : Prop :=
  (9 <= length (dict_keys r))%nat
  /\ take 9 (dict_keys r) = take 9 (dict_keys r0)
  /\ forall k, is_prefix "problem_" k = false ->
       dict_lookup r k = dict_lookup r0 k.

(** The pages loaded, in order. *)
Definition fetched_pages (events : list event) : list Z :=
  omap (fun e => match e with Get page => Some page | Sleep => None end)
       events.

(** What one iteration issues for [page]: the load, then the pause unless
    the page is the last one. *)
Definition page_events (max_page page : Z) : list event :=
  Get page :: if page <? max_page then [Sleep] else [].

(** The rankings one iteration of the loop obtains for [page]. *)
Definition page_rankings (site : browser) (region : string) (page : Z)
    : result (list dict) :=
  let data := fetch_page_data site page region in
  if truthy data then parse_ranking_data data else Ok [].

(** The [for page in range(min_page, max_page + 1)] loop over the pages
    left, from the accumulator [all_rankings]: the events issued and the
    final accumulator, or the exception that leaves the loop. *)
Fixpoint scrape_loop (site : browser) (region : string) (max_page : Z)
    (pages : list Z) (all_rankings : list dict)
    : list event * result (list dict) :=
  match pages with
  | [] => ([], Ok all_rankings)
  | page :: rest =>
      match page_rankings site region page with
      | Raise e => ([Get page], Raise e)
      | Ok rankings =>
          let all_rankings :=
            match rankings with
            | [] => all_rankings
            | _ => all_rankings ++ rankings
            end in
          let '(events, r) :=
            scrape_loop site region max_page rest all_rankings in
          (page_events max_page page ++ events, r)
      end
  end.

(** A [pandas.DataFrame] is kept as the list of records it is built from;
    [pd.DataFrame()] is the empty one. *)
Abbreviation DataFrame := (list dict).

Definition scrape_pages (site : browser) (min_page max_page : Z)
    (region : string) : list event * result DataFrame :=
  let '(events, r) :=
    scrape_loop site region max_page (range min_page (max_page + 1)) [] in
  (events,
   all_rankings ← r;
   match all_rankings with
   | [] => Ok []
   | _ => Ok all_rankings
   end).

(** [main] after the prompts: the rows saved to the CSV file, if any.  An
    exception from [scrape_pages] reaches [except Exception] and nothing
    is saved. *)
Definition main (site : browser) (min_page max_page : Z) (region : string)
    : option DataFrame :=
  match (scrape_pages site min_page max_page region).2 with
  | Raise _ => None
  | Ok [] => None
  | Ok df => Some df
  end.

End Scraper.

(** ** script.py *)
Module Search.

Section search.

(** [str.lower], as in the detail fetcher. *)
Variable lower : string -> string.

(** [user['username'].lower()]. *)
Definition username_lower (user : value) : result string :=
  u ← getitem user "username";
  DetailFetcher.lower_of lower u.

(** The loop shared by [search] and [search_starts_with]: [test] is
    [query in ...] or [....startswith(query)] on the lowered user name.
    [users] is what iterating over [self.usernames] yields. *)
Fixpoint matching (test : string -> bool) (users : list value)
    : result (list value) :=
  match users with
  | [] => Ok []
  | user :: rest =>
      name ← username_lower user;
      matches ← matching test rest;
      Ok (if test name then user :: matches else matches)
  end.

Definition search (users : list value) (query : string)
    : result (list value) :=
  matching (is_substring (lower query)) users.

(** Whether [user] has a name that passes [test] once lowered. *)
Definition passes (test : string -> bool) (user : value) : bool :=
  match username_lower user with
  | Ok name => test name
  | Raise _ => false
  end.

Definition search_starts_with (users : list value) (query : string)
    : result (list value) :=
  matching (is_prefix (lower query)) users.

End search.

(** [m.keys()]. *)
Definition keys (m : value) : result (list string) :=
  match m with
  | VDict d => Ok (dict_keys d)
  | _ => Raise AttributeError
  end.

(** [DictWriter._dict_to_list] on a value. *)
Definition to_line (fieldnames : list string) (m : value)
    : result (list value) :=
  match m with
  | VDict d => Csv.dict_to_list fieldnames d
  | _ => Raise AttributeError
  end.

(** The [.csv] branch of [export_results]: the table a complete export
    leaves in the file, or the exception its handler reports (the file
    then holds what was written before it).  No match, no header. *)
Definition export_csv (matches : list value) : result Csv.table :=
  match matches with
  | [] => Ok (Csv.Table [] [])
  | first :: _ =>
      fieldnames ← keys first;
      ls ← mapM (to_line fieldnames) matches;
      Ok (Csv.Table fieldnames ls)
  end.

End Search.

(** ** The schema of the specification *)
Module Spec.

(** The column list as the specification words it: the union of every
    field name seen, each at its first occurrence across the records. *)
Definition add_column (cols : list string) (k : string) : list string :=
  if decide (k ∈ cols) then cols else cols ++ [k].

Definition first_seen_columns (records : list dict) : list string :=
  foldl add_column [] (mjoin (dict_keys <$> records)).

End Spec.

(** ** Sample inputs *)
Module Examples.

Definition alice : value :=
  VDict [("username", VStr "alice");
         ("profile", VDict [("school", VStr "MIT")])].

Definition found (user : value) : post_result :=
  Response 200 (Some (VDict [("data", VDict [("matchedUser", user)])])).

(** [str.lower] on ASCII letters. *)
Definition lower_char (c : ascii) : ascii :=
  let n := nat_of_ascii c in
  if ((65 <=? n) && (n <=? 90))%nat then ascii_of_nat (n + 32) else c.

Fixpoint ascii_lower (s : string) : string :=
  match s with
  | EmptyString => EmptyString
  | String c s' => String (lower_char c) (ascii_lower s')
  end.

(** Two input rows, as the scraper's CSV has them. *)
Definition two_rows : list Csv.row :=
  [[("user_slug", Some "a"); ("username", Some "A")];
   [("user_slug", Some "b"); ("username", Some "B")]].

(** The lookup of [a] succeeds, every other one times out. *)
Definition net (i : nat) (slug : string) : post_result :=
  if decide (slug = "a") then found alice else PostRaises Timeout.

(** The lookup of [a] succeeds, the answer to every other one is the
    JSON text [{"data": null}]. *)
Definition net_null (i : nat) (slug : string) : post_result :=
  if decide (slug = "a") then found alice
  else Response 200 (Some (VDict [("data", VNone)])).

(** A ranking site.  Page 2 of [site_gap] is an HTML error page (no JSON);
    page 2 of [site_null] is JSON whose [total_rank] is [null].  Every
    other page lists one user. *)
Definition ranked (name : string) : value :=
  VDict [("total_rank",
          VList [VDict [("rank", VInt 1); ("username", VStr name)]])].

Definition site_gap : Scraper.browser := fun page _ =>
  if decide (page = 2) then Scraper.NotJson else Scraper.Json (ranked "u").

Definition site_null : Scraper.browser := fun page _ =>
  if decide (page = 2) then Scraper.Json (VDict [("total_rank", VNone)])
  else Scraper.Json (ranked "u").

(** Three loaded users for [script.py]. *)
Definition users : list value :=
  [VDict [("rank", VStr "1"); ("username", VStr "Alice")];
   VDict [("rank", VStr "2"); ("username", VStr "bob")];
   VDict [("rank", VStr "3"); ("username", VStr "Malice")]].

End Examples.

(** * Facts about the Python layer *)

(** ** [strip] and [sorted] on samples *)

Example strip_spaces : strip "  ab c  " = "ab c".
Proof. by vm_compute. Qed.

Example strip_blank : strip "   " = "" /\ strip "" = "".
Proof. by vm_compute. Qed.

(** U+2009 (thin space) and U+00A0 (no-break space) are whitespace too. *)
Example strip_unicode :
  strip (bytes [226; 128; 137; 120; 194; 160]%nat) = "x".
Proof. by vm_compute. Qed.

Example sorted_by_code_point :
  sorted ["b"; "a"; "B"; "ab"] = ["B"; "a"; "ab"; "b"].
Proof. by vm_compute. Qed.

(** ** The order [sorted] uses *)

Lemma str_le_cases (s1 s2 : string) :
  str_le s1 s2 <-> s1 = s2 \/ String_as_OT.lt s1 s2.
Proof.
  unfold str_le, String.leb.
  pose proof (String_as_OT.cmp_eq s1 s2) as Heq.
  pose proof (String_as_OT.cmp_lt s1 s2) as Hlt.
  unfold String_as_OT.cmp in *.
  destruct (String.compare s1 s2) eqn:Hc; split; intros H.
  - left. by apply Heq.
  - done.
  - right. by apply Hlt.
  - done.
  - done.
  - destruct H as [H | H].
    + apply Heq in H. discriminate.
    + apply Hlt in H. discriminate.
Qed.

#[global] Instance str_le_total : Total str_le.
Proof. intros s1 s2. apply String.leb_total. Qed.

#[global] Instance str_le_antisymm : AntiSymm (=) str_le.
Proof. intros s1 s2. apply String.leb_antisym. Qed.

#[global] Instance str_le_refl : Reflexive str_le.
Proof. intros s. apply str_le_cases. by left. Qed.

#[global] Instance str_le_trans : Transitive str_le.
Proof.
  intros s1 s2 s3 H12 H23.
  apply str_le_cases in H12 as [-> | H12]; [done |].
  apply str_le_cases in H23 as [<- | H23].
  - apply str_le_cases. by right.
  - apply str_le_cases. right. by eapply String_as_OT.lt_trans.
Qed.

Lemma sorted_StronglySorted (l : list string) :
  StronglySorted str_le (sorted l).
Proof. apply StronglySorted_merge_sort; apply _. Qed.

Lemma sorted_Permutation (l : list string) : sorted l ≡ₚ l.
Proof. apply merge_sort_Permutation. Qed.

Lemma elem_of_sorted (l : list string) (k : string) : k ∈ sorted l <-> k ∈ l.
Proof. by rewrite sorted_Permutation. Qed.

(** [sorted] does not depend on the order of its argument: the order in
    which a set is listed plays no role. *)
Lemma sorted_proper (l1 l2 : list string) :
  l1 ≡ₚ l2 -> sorted l1 = sorted l2.
Proof.
  intros Hp. apply (Sorted_unique str_le).
  - apply StronglySorted_Sorted, sorted_StronglySorted.
  - apply StronglySorted_Sorted, sorted_StronglySorted.
  - by rewrite !sorted_Permutation.
Qed.

(** ** Column schemas *)

Lemma elem_of_all_fieldnames_from (names : gset string)
    (records : list dict) (k : string) :
  k ∈ foldl (fun names data => names ∪ list_to_set (dict_keys data))
        names records
  <-> k ∈ names \/ exists d, d ∈ records /\ k ∈ dict_keys d.
Proof.
  revert names. induction records as [| d records IH]; intros names; simpl.
  - split; [by left | intros [H | (d & Hd & _)]; [done | inversion Hd]].
  - rewrite IH, elem_of_union, elem_of_list_to_set. split.
    + intros [[H | H] | (d' & Hd' & Hk)]; [by left | right | right].
      * exists d. split; [left | done].
      * exists d'. split; [by right | done].
    + intros [H | (d' & Hd' & Hk)]; [by left; left |].
      apply elem_of_cons in Hd' as [-> | Hd'].
      * left. by right.
      * right. eauto.
Qed.

Lemma elem_of_all_fieldnames (records : list dict) (k : string) :
  k ∈ DetailFetcher.all_fieldnames records
  <-> exists d, d ∈ records /\ k ∈ dict_keys d.
Proof.
  unfold DetailFetcher.all_fieldnames.
  rewrite elem_of_all_fieldnames_from. set_solver.
Qed.

Lemma add_columns_spec (cols ks : list string) :
  (NoDup cols -> NoDup (foldl Spec.add_column cols ks))
  /\ forall k, k ∈ foldl Spec.add_column cols ks <-> k ∈ cols \/ k ∈ ks.
Proof.
  revert cols. induction ks as [| k' ks IH]; intros cols; simpl.
  - split; [done | set_solver].
  - destruct (IH (Spec.add_column cols k')) as [IHd IHe]. split.
    + intros Hd. apply IHd. unfold Spec.add_column.
      case_decide; [done |]. apply NoDup_app. set_solver by eauto using NoDup_singleton.
    + intros k. rewrite IHe. unfold Spec.add_column.
      case_decide; set_solver.
Qed.

Lemma first_seen_columns_NoDup (records : list dict) :
  NoDup (Spec.first_seen_columns records).
Proof. apply add_columns_spec. constructor. Qed.

Lemma elem_of_first_seen_columns (records : list dict) (k : string) :
  k ∈ Spec.first_seen_columns records
  <-> exists d, d ∈ records /\ k ∈ dict_keys d.
Proof.
  unfold Spec.first_seen_columns.
  rewrite (proj2 (add_columns_spec _ _)), list_elem_of_join.
  split.
  - intros [H | (ks & Hk & Hks)]; [inversion H |].
    apply list_elem_of_fmap in Hks as (d & -> & Hd). eauto.
  - intros (d & Hd & Hk). right. exists (dict_keys d). split; [done |].
    apply list_elem_of_fmap. eauto.
Qed.

Lemma elem_of_fieldnames (records : list dict) (k : string) :
  k ∈ DetailFetcher.fieldnames records
  <-> exists d, d ∈ records /\ k ∈ dict_keys d.
Proof.
  unfold DetailFetcher.fieldnames.
  by rewrite elem_of_sorted, elem_of_elements, elem_of_all_fieldnames.
Qed.

(** C2, as the claim words it, fails: a single record whose keys are not
    in alphabetical order already gets its columns reordered, by
    [process_csv_file] and by [save_to_csv] alike. *)
Lemma first_seen_order_refuted :
  let record : dict := [("user_slug", VStr "x"); ("rank", VStr "1")] in
  Spec.first_seen_columns [record] = ["user_slug"; "rank"]
  /\ DetailFetcher.fieldnames [record] = ["rank"; "user_slug"]
  /\ DetailById.fieldnames record = ["rank"; "user_slug"]
  /\ ~ (forall records : list dict,
          DetailFetcher.fieldnames records
          = Spec.first_seen_columns records).
Proof.
  intros record. split_and!; [by vm_compute ..|].
  intros H. specialize (H [record]). vm_compute in H. discriminate.
Qed.

(** C2, amended: the column list is the union of every field name seen
    across the records, each once, in ascending string order (the
    first-seen list, sorted); a column once observed stays when further
    records are merged.  [save_to_csv] orders the keys of its one record
    the same way. *)
Theorem fieldnames_sorted_union (records : list dict) :
  DetailFetcher.fieldnames records = sorted (Spec.first_seen_columns records)
  /\ StronglySorted str_le (DetailFetcher.fieldnames records)
  /\ NoDup (DetailFetcher.fieldnames records)
  /\ (forall k, k ∈ DetailFetcher.fieldnames records
                <-> exists d, d ∈ records /\ k ∈ dict_keys d)
  /\ (forall more, DetailFetcher.fieldnames records
                   ⊆ DetailFetcher.fieldnames (records ++ more))
  /\ (forall d, StronglySorted str_le (DetailById.fieldnames d)
                /\ forall k, k ∈ DetailById.fieldnames d <-> k ∈ dict_keys d).
Proof.
  assert (Hperm : elements (DetailFetcher.all_fieldnames records)
                  ≡ₚ Spec.first_seen_columns records).
  { apply NoDup_Permutation.
    - apply NoDup_elements.
    - apply first_seen_columns_NoDup.
    - intros k. by rewrite elem_of_elements, elem_of_all_fieldnames,
        elem_of_first_seen_columns. }
  split_and!.
  - by apply sorted_proper.
  - apply sorted_StronglySorted.
  - unfold DetailFetcher.fieldnames. rewrite sorted_Permutation.
    apply NoDup_elements.
  - apply elem_of_fieldnames.
  - intros more k. rewrite !elem_of_fieldnames.
    intros (d & Hd & Hk). exists d. split; [| done].
    apply elem_of_app. by left.
  - intros d. split; [apply sorted_StronglySorted |].
    intros k. apply elem_of_sorted.
Qed.

(** * user_school_leetcode_fetcher.py: one result per key *)

(** Whatever the POST meets, [fetch_user] returns the placeholder or a
    record built from a truthy [matchedUser]. *)
Lemma fetch_user_cases (r : post_result) (user_slug : string) :
  SchoolFetcher.fetch_user r user_slug = SchoolFetcher.placeholder user_slug
  \/ exists data username school,
       SchoolFetcher.matched_user r = Ok data /\ truthy data = true
       /\ SchoolFetcher.fetch_user r user_slug
          = [("user_slug", VStr user_slug); ("username", username);
             ("school", school)].
Proof.
  unfold SchoolFetcher.fetch_user, SchoolFetcher.fetch_user_try.
  destruct (SchoolFetcher.matched_user r) as [data | e]; simpl; [| by left].
  destruct (truthy data) eqn:Ht; simpl; [| by left].
  destruct (get data "username" (VStr "")) as [username | ?]; simpl;
    [| by left].
  destruct (get data "profile" (VDict [])) as [profile | ?]; simpl;
    [| by left].
  destruct (get profile "school" (VStr "")) as [school | ?]; simpl;
    [| by left].
  right. by exists data, username, school.
Qed.

Lemma fetch_user_shape (r : post_result) (user_slug : string) :
  dict_keys (SchoolFetcher.fetch_user r user_slug) = SchoolFetcher.fieldnames
  /\ dict_lookup (SchoolFetcher.fetch_user r user_slug) "user_slug"
     = Some (VStr user_slug).
Proof.
  destruct (fetch_user_cases r user_slug)
    as [-> | (data & username & school & _ & _ & ->)]; by split.
Qed.

(** The handler: an exception anywhere in the [try] gives the placeholder. *)
Lemma fetch_user_error (r : post_result) (user_slug : string) (e : exn) :
  SchoolFetcher.fetch_user_try r user_slug = Raise e ->
  SchoolFetcher.fetch_user r user_slug = SchoolFetcher.placeholder user_slug.
Proof. unfold SchoolFetcher.fetch_user. by intros ->. Qed.

(** [matchedUser] absent, null or otherwise falsy gives the placeholder. *)
Lemma fetch_user_not_found (r : post_result) (user_slug : string)
    (data : value) :
  SchoolFetcher.matched_user r = Ok data -> truthy data = false ->
  SchoolFetcher.fetch_user r user_slug = SchoolFetcher.placeholder user_slug.
Proof.
  unfold SchoolFetcher.fetch_user, SchoolFetcher.fetch_user_try.
  intros -> Ht. simpl. by rewrite Ht.
Qed.

(** The errors a request can end in all surface inside the [try]. *)
Lemma fetch_user_try_raises (r : post_result) (user_slug : string) :
  match r with
  | PostRaises _ | Response _ None => True
  | Response status_code (Some _) =>
      400 <= status_code < 600
  end ->
  exists e, SchoolFetcher.fetch_user_try r user_slug = Raise e.
Proof.
  unfold SchoolFetcher.fetch_user_try, SchoolFetcher.matched_user.
  destruct r as [e | status_code body]; simpl; [by eauto |].
  unfold raise_for_status.
  destruct (400 <=? status_code) eqn:H1, (status_code <? 600) eqn:H2;
    simpl; eauto; destruct body; simpl; eauto; lia.
Qed.

(** The loop over [as_completed]: entry [i] of [results] is the result of
    the [i]-th future to complete. *)
Lemma collect_lookup (futs : list (string * dict)) (order : list nat)
    (i : nat) :
  Forall (fun j => (j < length futs)%nat) order ->
  SchoolFetcher.collect futs order !! i
  = order !! i ≫= fun j => snd <$> futs !! j.
Proof.
  unfold SchoolFetcher.collect. intros Hall. revert i.
  induction Hall as [| j order Hj _ IH]; intros i; [done |].
  apply lookup_lt_is_Some_2 in Hj as [fut Hfut]. simpl. rewrite Hfut. simpl.
  destruct i as [| i]; simpl; [by rewrite Hfut | apply IH].
Qed.


Lemma collect_submission_order (futs : list (string * dict)) :
  SchoolFetcher.collect futs (seq 0 (length futs)) = snd <$> futs.
Proof.
  apply list_eq. intros i.
  rewrite collect_lookup by (apply Forall_seq; lia).
  rewrite list_lookup_fmap.
  destruct (decide (i < length futs)%nat) as [Hi | Hi].
  - by rewrite lookup_seq_lt.
  - rewrite lookup_seq_ge by lia. by rewrite lookup_ge_None_2 by lia.
Qed.

Lemma collect_Permutation (futs : list (string * dict)) (order : list nat) :
  SchoolFetcher.completion_order (length futs) order ->
  SchoolFetcher.collect futs order ≡ₚ snd <$> futs.
Proof.
  unfold SchoolFetcher.completion_order. intros Horder.
  rewrite <- collect_submission_order. unfold SchoolFetcher.collect.
  by rewrite Horder.
Qed.

Lemma futures_results (net : nat -> string -> post_result)
    (user_slugs : list string) :
  snd <$> SchoolFetcher.futures net user_slugs
  = imap (fun i slug => SchoolFetcher.fetch_user (net i slug) slug)
         user_slugs.
Proof. unfold SchoolFetcher.futures. by rewrite fmap_imap. Qed.

(** Records with exactly the three output fields are written as they
    are. *)
Lemma write_results (rs : list dict) :
  Forall (fun d => dict_keys d = SchoolFetcher.fieldnames) rs ->
  Csv.write SchoolFetcher.fieldnames rs
  = Ok (Csv.Table SchoolFetcher.fieldnames
          (Csv.project SchoolFetcher.fieldnames <$> rs)).
Proof.
  intros Hall. unfold Csv.write.
  assert (Hls : mapM (Csv.dict_to_list SchoolFetcher.fieldnames) rs
                = Ok (Csv.project SchoolFetcher.fieldnames <$> rs)).
  { induction Hall as [| d rs Hd _ IH]; [done |].
    change (mapM (Csv.dict_to_list SchoolFetcher.fieldnames) (d :: rs))
      with (y ← Csv.dict_to_list SchoolFetcher.fieldnames d;
            k ← mapM (Csv.dict_to_list SchoolFetcher.fieldnames) rs;
            Ok (y :: k)).
    rewrite IH. unfold Csv.dict_to_list. by rewrite Hd. }
  by rewrite Hls.
Qed.

(** C1: whatever the order in which the pool completes the tasks, the
    results are, as a multiset, the fetch results of the submitted slugs
    (one per submitted slug, none dropped, none added), and they are what
    the output file gets; each carries its slug, and a slug whose fetch
    raises or finds no user resolves to the placeholder with empty username
    and school. *)
Theorem one_result_per_key (net : nat -> string -> post_result)
    (rows : list Csv.row) (order : list nat) :
  let slugs := SchoolFetcher.user_slugs rows in
  let rs := SchoolFetcher.results net rows order in
  SchoolFetcher.completion_order (length slugs) order ->
  rs ≡ₚ imap (fun i slug => SchoolFetcher.fetch_user (net i slug) slug) slugs
  /\ length rs = length slugs
  /\ SchoolFetcher.process_csv net rows order
     = match rs with
       | [] => SchoolFetcher.NoData
       | _ => SchoolFetcher.Saved
                (Csv.Table SchoolFetcher.fieldnames
                   (Csv.project SchoolFetcher.fieldnames <$> rs))
       end
  /\ forall i slug, slugs !! i = Some slug ->
       let d := SchoolFetcher.fetch_user (net i slug) slug in
       d ∈ rs
       /\ dict_keys d = SchoolFetcher.fieldnames
       /\ dict_lookup d "user_slug" = Some (VStr slug)
       /\ (forall e, SchoolFetcher.fetch_user_try (net i slug) slug = Raise e ->
             d = SchoolFetcher.placeholder slug)
       /\ (forall data, SchoolFetcher.matched_user (net i slug) = Ok data ->
             truthy data = false -> d = SchoolFetcher.placeholder slug).
Proof.
  intros slugs rs Horder.
  assert (Hperm : rs ≡ₚ imap (fun i slug =>
            SchoolFetcher.fetch_user (net i slug) slug) slugs).
  { rewrite <- futures_results. apply collect_Permutation.
    unfold SchoolFetcher.futures. by rewrite length_imap. }
  split_and!; [done | by rewrite Hperm, length_imap | |].
  { unfold SchoolFetcher.process_csv. fold rs.
    assert (Hall : Forall (fun d => dict_keys d = SchoolFetcher.fieldnames)
                     rs).
    { apply Forall_forall. intros d Hd. rewrite Hperm in Hd.
      apply elem_of_lookup_imap in Hd as (i & slug & -> & _).
      apply fetch_user_shape. }
    pose proof (write_results rs Hall) as Hw.
    destruct rs; [done | by rewrite Hw]. }
  intros i slug Hi d. split_and!.
  - rewrite Hperm. subst d.
    by apply (elem_of_lookup_imap_2
                (fun i slug => SchoolFetcher.fetch_user (net i slug) slug)).
  - apply fetch_user_shape.
  - apply fetch_user_shape.
  - apply fetch_user_error.
  - apply fetch_user_not_found.
Qed.

Lemma one_result_per_key_witness :
  SchoolFetcher.completion_order 2 [1; 0]%nat
  /\ SchoolFetcher.results Examples.net Examples.two_rows [1; 0]%nat
     ≡ₚ [[("user_slug", VStr "a"); ("username", VStr "alice");
          ("school", VStr "MIT")];
         SchoolFetcher.placeholder "b"].
Proof.
  assert (Horder : SchoolFetcher.completion_order 2 [1; 0]%nat)
    by apply Permutation_swap.
  split; [exact Horder |].
  exact (proj1 (one_result_per_key Examples.net Examples.two_rows
                  [1; 0]%nat Horder)).
Defined.

(** * user_school_leetcode_fetcher.py: the order of the results *)




(** * leetcode_scraper.py: the page loop *)

Lemma fetched_pages_app (es1 es2 : list Scraper.event) :
  Scraper.fetched_pages (es1 ++ es2)
  = Scraper.fetched_pages es1 ++ Scraper.fetched_pages es2.
Proof. apply omap_app. Qed.

Lemma fetched_pages_page_events (max_page : Z) (pages : list Z) :
  Scraper.fetched_pages (mjoin (Scraper.page_events max_page <$> pages))
  = pages.
Proof.
  induction pages as [| page pages IH]; [done |].
  change (Scraper.fetched_pages
            (Scraper.page_events max_page page
             ++ mjoin (Scraper.page_events max_page <$> pages))
          = page :: pages).
  rewrite fetched_pages_app, IH.
  unfold Scraper.page_events. by destruct (page <? max_page).
Qed.

(** The loop on pages that all load or fail without an exception leaving
    the iteration: every page is visited, in order, and the rankings of
    each are appended. *)
Lemma scrape_loop_ok (site : Scraper.browser) (region : string)
    (max_page : Z) (pages : list Z) (all_rankings : list dict) :
  Forall (fun page =>
            raised (Scraper.page_rankings site region page) = false) pages ->
  exists rankings,
    Forall2 (fun page rs => Scraper.page_rankings site region page = Ok rs)
            pages rankings
    /\ Scraper.scrape_loop site region max_page pages all_rankings
       = (mjoin (Scraper.page_events max_page <$> pages),
          Ok (all_rankings ++ mjoin rankings)).
Proof.
  intros Hall. revert all_rankings.
  induction Hall as [| page pages Hpage _ IH]; intros all_rankings.
  - exists []. split; [constructor |]. simpl. by rewrite app_nil_r.
  - simpl. destruct (Scraper.page_rankings site region page)
      as [rs | e] eqn:Hrs; [| done].
    destruct (IH (match rs with
                  | [] => all_rankings
                  | _ => all_rankings ++ rs
                  end)) as (rankings & Hrankings & ->).
    exists (rs :: rankings). split; [by constructor |].
    change (mjoin (rs :: rankings)) with (rs ++ mjoin rankings).
    f_equal. f_equal.
    destruct rs; simpl; [done | by rewrite <- app_assoc].
Qed.

Lemma range_inclusive (min_page max_page : Z) :
  Scraper.range min_page (max_page + 1)
  = seqZ min_page (max_page - min_page + 1).
Proof. unfold Scraper.range. f_equal. lia. Qed.

Lemma last_page_events (min_page max_page : Z) :
  min_page <= max_page ->
  last (mjoin (Scraper.page_events max_page
               <$> seqZ min_page (max_page - min_page + 1)))
  = Some (Scraper.Get max_page).
Proof.
  intros Hle.
  rewrite (seqZ_app min_page (max_page - min_page) 1) by lia.
  rewrite fmap_app, join_app.
  replace (min_page + (max_page - min_page)) with max_page by lia.
  rewrite (seqZ_cons max_page 1), (seqZ_nil _ (Z.pred 1)) by lia.
  change (last (mjoin (Scraper.page_events max_page
                       <$> seqZ min_page (max_page - min_page))
                ++ (Scraper.Get max_page
                    :: (if max_page <? max_page then [Scraper.Sleep]
                        else [])) ++ [])
          = Some (Scraper.Get max_page)).
  rewrite Z.ltb_irrefl. simpl. apply last_snoc.
Qed.

(** The run on a range with [min_page <= max_page] none of whose payloads
    makes [parse_ranking_data] raise (pages may fail to load, not be JSON
    or come back empty): the loop loads every page of the range exactly
    once, in ascending order, with a pause between two loads, appends the
    rankings of each page in page order, goes on after a page without
    rankings, and ends with the load of [max_page]. *)
Theorem scrape_pages_covers_range (site : Scraper.browser)
    (min_page max_page : Z) (region : string) :
  min_page <= max_page ->
  (forall page, min_page <= page <= max_page ->
     raised (Scraper.page_rankings site region page) = false) ->
  let pages := seqZ min_page (max_page - min_page + 1) in
  let run := Scraper.scrape_pages site min_page max_page region in
  exists rankings,
    Forall2 (fun page rs => Scraper.page_rankings site region page = Ok rs)
            pages rankings
    /\ run = (mjoin (Scraper.page_events max_page <$> pages),
              Ok (mjoin rankings))
    /\ Scraper.fetched_pages run.1 = pages
    /\ last run.1 = Some (Scraper.Get max_page).
Proof.
  intros Hle Hpages pages run.
  destruct (scrape_loop_ok site region max_page pages [])
    as (rankings & Hrankings & Hloop).
  { apply Forall_seqZ. intros page Hpage. apply Hpages. lia. }
  assert (Hrun : run = (mjoin (Scraper.page_events max_page <$> pages),
                        Ok (mjoin rankings))).
  { subst run. unfold Scraper.scrape_pages.
    rewrite range_inclusive. fold pages. rewrite Hloop. simpl.
    by destruct (mjoin rankings). }
  exists rankings. rewrite Hrun. split_and!; [done | done | |].
  - apply fetched_pages_page_events.
  - by apply last_page_events.
Qed.

Lemma scrape_pages_covers_range_witness :
  1 <= 3
  /\ Scraper.fetched_pages
       (Scraper.scrape_pages Examples.site_gap 1 3 "global_v2").1
     = [1; 2; 3]
  /\ (Scraper.scrape_pages Examples.site_gap 1 3 "global_v2").2
     = Ok [[("rank", VInt 1); ("username", VStr "u");
            ("user_slug", VNone); ("country_code", VNone);
            ("country_name", VNone); ("score", VNone);
            ("finish_time", VNone); ("data_region", VNone);
            ("contest_id", VNone)];
           [("rank", VInt 1); ("username", VStr "u");
            ("user_slug", VNone); ("country_code", VNone);
            ("country_name", VNone); ("score", VNone);
            ("finish_time", VNone); ("data_region", VNone);
            ("contest_id", VNone)]].
Proof.
  split; [lia |].
  destruct (scrape_pages_covers_range Examples.site_gap 1 3 "global_v2")
    as (rankings & _ & _ & Hpages & _);
    [lia | | split; [exact Hpages | by vm_compute]].
  intros page _. unfold Scraper.page_rankings, Scraper.fetch_page_data,
    Examples.site_gap.
  destruct (decide (page = 2)); reflexivity.
Defined.

(** A page that does not load, or whose body is not JSON, contributes no
    ranking and raises nothing: the loop goes on. *)
Lemma failed_page_is_skipped (site : Scraper.browser) (region : string)
    (page : Z) :
  match site page region with
  | Scraper.Json _ => False
  | _ => True
  end ->
  Scraper.page_rankings site region page = Ok [].
Proof.
  unfold Scraper.page_rankings, Scraper.fetch_page_data.
  by destruct (site page region).
Qed.

(** C7 at a failing input: page 1 lists a user, page 2 is JSON whose
    [total_rank] is [null].  Iterating over [None] raises [TypeError] in
    [parse_ranking_data]; nothing catches it before [main], so page 3 is
    never loaded and the user collected from page 1 is not saved.  With a
    page 2 that is not JSON at all the same run completes and keeps both
    users. *)
Theorem shape_error_aborts_run :
  Scraper.scrape_pages Examples.site_null 1 3 "global_v2"
  = ([Scraper.Get 1; Scraper.Sleep; Scraper.Get 2], Raise TypeError)
  /\ Scraper.main Examples.site_null 1 3 "global_v2" = None
  /\ Scraper.main Examples.site_gap 1 3 "global_v2"
     = Some [[("rank", VInt 1); ("username", VStr "u");
              ("user_slug", VNone); ("country_code", VNone);
              ("country_name", VNone); ("score", VNone);
              ("finish_time", VNone); ("data_region", VNone);
              ("contest_id", VNone)];
             [("rank", VInt 1); ("username", VStr "u");
              ("user_slug", VNone); ("country_code", VNone);
              ("country_name", VNone); ("score", VNone);
              ("finish_time", VNone); ("data_region", VNone);
              ("contest_id", VNone)]].
Proof. by vm_compute. Qed.

(** C6 at a failing input, the one of C7: on the range 1..3, page 2 is
    JSON whose [total_rank] is [null].  The loop is left by [TypeError]
    right after the load of page 2: page 3 of the range is never loaded,
    the run does not end with the load of [max_page], and the rankings
    appended for page 1 are lost with the accumulator.  The pages up to
    page 2 are loaded once each and in order. *)
Theorem range_cut_short_by_shape_error :
  let run := Scraper.scrape_pages Examples.site_null 1 3 "global_v2" in
  Scraper.fetched_pages run.1 = [1; 2]
  /\ Scraper.fetched_pages run.1 <> seqZ 1 (3 - 1 + 1)
  /\ last run.1 = Some (Scraper.Get 2)
  /\ run.2 = Raise TypeError
  /\ Scraper.page_rankings Examples.site_null "global_v2" 1
     = Ok [[("rank", VInt 1); ("username", VStr "u");
            ("user_slug", VNone); ("country_code", VNone);
            ("country_name", VNone); ("score", VNone);
            ("finish_time", VNone); ("data_region", VNone);
            ("contest_id", VNone)]]
  /\ Scraper.page_rankings Examples.site_null "global_v2" 2
     = Raise TypeError.
Proof. by vm_compute. Qed.

(** C8, as the claim words it, fails: with [min_page > max_page] the run
    raises nothing. *)
Lemma invalid_range_not_signalled :
  ~ (forall (site : Scraper.browser) (min_page max_page : Z)
            (region : string),
       max_page < min_page ->
       exists e,
         (Scraper.scrape_pages site min_page max_page region).2 = Raise e).
Proof.
  intros H.
  destruct (H Examples.site_gap 3 1 "global_v2") as [e He]; [lia |].
  vm_compute in He. discriminate.
Qed.

(** C8, amended: with [min_page > max_page] the range is empty: no page is
    loaded, no pause is made, and the run completes normally with the
    empty frame, which [main] reports as no data. *)
Theorem invalid_range_is_empty_run (site : Scraper.browser)
    (min_page max_page : Z) (region : string) :
  max_page < min_page ->
  Scraper.scrape_pages site min_page max_page region = ([], Ok [])
  /\ Scraper.main site min_page max_page region = None.
Proof.
  intros Hlt.
  assert (Hrun : Scraper.scrape_pages site min_page max_page region
                 = ([], Ok [])).
  { unfold Scraper.scrape_pages, Scraper.range.
    by rewrite seqZ_nil by lia. }
  split; [done |]. unfold Scraper.main. by rewrite Hrun.
Qed.

Lemma invalid_range_is_empty_run_witness :
  1 < 3
  /\ Scraper.scrape_pages Examples.site_gap 3 1 "global_v2" = ([], Ok []).
Proof.
  split; [lia |].
  apply (invalid_range_is_empty_run Examples.site_gap 3 1 "global_v2"). lia.
Defined.


(** * user_detail_leetcode_fetcher.py: the merge with the input rows *)

Lemma dict_to_list_project (fieldnames : list string) (d : dict)
    (l : list value) :
  Csv.dict_to_list fieldnames d = Ok l -> l = Csv.project fieldnames d.
Proof.
  unfold Csv.dict_to_list.
  destruct (forallb (fun k => bool_decide (k ∈ fieldnames)) (dict_keys d));
    [| done].
  by intros [= <-].
Qed.

Lemma mapM_dict_to_list (fieldnames : list string) (ds : list dict)
    (ls : list (list value)) :
  mapM (Csv.dict_to_list fieldnames) ds = Ok ls ->
  ls = Csv.project fieldnames <$> ds.
Proof.
  revert ls. induction ds as [| d ds IH]; intros ls.
  - by intros [= <-].
  - change (mapM (Csv.dict_to_list fieldnames) (d :: ds))
      with (y ← Csv.dict_to_list fieldnames d;
            k ← mapM (Csv.dict_to_list fieldnames) ds; Ok (y :: k)).
    destruct (Csv.dict_to_list fieldnames d) as [l |] eqn:Hl; simpl;
      [| done].
    destruct (mapM (Csv.dict_to_list fieldnames) ds) as [ls' |]; simpl;
      [| done].
    intros [= <-].
    by rewrite (IH ls'), (dict_to_list_project _ _ _ Hl).
Qed.

Lemma write_table (fieldnames : list string) (ds : list dict)
    (t : Csv.table) :
  Csv.write fieldnames ds = Ok t ->
  Csv.columns t = fieldnames
  /\ Csv.lines t = Csv.project fieldnames <$> ds.
Proof.
  unfold Csv.write.
  destruct (mapM (Csv.dict_to_list fieldnames) ds) as [ls |] eqn:Hls;
    simpl; [| done].
  intros [= <-]. simpl. split; [done |]. by apply mapM_dict_to_list.
Qed.

(** A cell of a projected record: the record's value under that column,
    or the writer's [restval]. *)
Lemma project_lookup (fieldnames : list string) (d : dict) (j : nat)
    (c : string) :
  fieldnames !! j = Some c ->
  Csv.project fieldnames d !! j
  = Some (match dict_lookup d c with
          | Some v => v
          | None => VStr ""
          end).
Proof.
  intros Hc. unfold Csv.project. rewrite list_lookup_fmap, Hc. simpl.
  by destruct (dict_lookup d c).
Qed.

(** The loop, when no exception leaves it: [all_user_data] has one record
    per row with a slug, in the order of the rows. *)
Lemma collect_rows (lower : string -> string)
    (net : nat -> string -> post_result) (rows : list Csv.row) :
  forall (i0 : nat) (fetched : list string) (ds : list dict),
  DetailFetcher.collect lower net i0 rows = (fetched, Ok ds) ->
  length ds = length (filter DetailFetcher.has_slug rows)
  /\ forall k row,
       rows !! k = Some row -> DetailFetcher.has_slug row ->
       exists slug d,
         DetailFetcher.slug_of row = Ok slug
         /\ DetailFetcher.fetch_leetcode_user_data (net (i0 + k)%nat slug)
              ≫= DetailFetcher.combine lower row = Ok d
         /\ ds !! length (filter DetailFetcher.has_slug (take k rows))
            = Some d.
Proof.
  induction rows as [| row rest IH]; intros i0 fetched ds; simpl.
  - intros [= <- <-]. split; [done |]. intros k row Hk. inversion Hk.
  - destruct (DetailFetcher.slug_of row) as [user_slug | e] eqn:Hslug;
      [| done].
    destruct (bool_decide (user_slug = "")) eqn:Hempty; simpl.
    + intros Hrest. destruct (IH _ _ _ Hrest) as [Hlen Hrows].
      assert (Hskip : ~ DetailFetcher.has_slug row).
      { unfold DetailFetcher.has_slug. rewrite Hslug. simpl.
        rewrite Hempty. simpl. tauto. }
      split.
      * by rewrite filter_cons_False by done.
      * intros [| k] row' Hk Hrow'; simpl in Hk.
        -- by injection Hk as <-.
        -- destruct (Hrows k row' Hk Hrow') as (slug & d' & ? & ? & ?).
           exists slug, d'. rewrite Nat.add_succ_r.
           split_and!; [done .. |]. simpl.
           by rewrite filter_cons_False by done.
    + destruct (DetailFetcher.fetch_leetcode_user_data (net i0 user_slug)
                  ≫= DetailFetcher.combine lower row) as [d | e] eqn:Hd;
        [| by intros [=]].
      destruct (DetailFetcher.collect lower net (S i0) rest)
        as [fetched' [ds' | e]] eqn:Hrest; simpl; [| by intros [=]].
      intros [= <- <-].
      destruct (IH _ _ _ Hrest) as [Hlen Hrows].
      assert (Hkept : DetailFetcher.has_slug row).
      { unfold DetailFetcher.has_slug. rewrite Hslug. simpl.
        rewrite Hempty. simpl. exact I. }
      split.
      * rewrite filter_cons_True by done. simpl. by rewrite Hlen.
      * intros [| k] row' Hk Hrow'; simpl in Hk.
        -- injection Hk as <-. exists user_slug, d.
           by rewrite Nat.add_0_r.
        -- destruct (Hrows k row' Hk Hrow') as (slug & d' & ? & ? & ?).
           exists slug, d'. rewrite Nat.add_succ_r.
           split_and!; [done .. |]. simpl.
           by rewrite filter_cons_True by done.
Qed.

Lemma to_dict_lookup (row : Csv.row) (c : string) :
  dict_lookup (Csv.to_dict row) c = Csv.cell <$> Csv.row_lookup row c.
Proof.
  induction row as [| [k v] row IH]; [done |]. simpl.
  by destruct (decide (k = c)).
Qed.

Lemma dict_lookup_keys (d : dict) (c : string) :
  is_Some (dict_lookup d c) -> c ∈ dict_keys d.
Proof.
  induction d as [| [k v] d IH]; simpl; [by intros [? ?] |].
  destruct (decide (k = c)) as [-> | ?]; intros H.
  - left.
  - right. by apply IH.
Qed.

(** A fetched field with the name of an input column.  The scraper's CSV
    has a [username] column and [parse_user_data] produces one too: for
    [a], whose fetch succeeds, the cell holds the fetched name; for [b],
    whose fetch times out, the row is kept, and its [username] cell holds
    the input value. *)
Lemma fetched_column_keeps_input_value :
  exists parsed t,
    DetailFetcher.parse_user_data Examples.ascii_lower Examples.alice
    = Ok parsed
    /\ is_Some (dict_lookup parsed "username")
    /\ DetailFetcher.fetch_leetcode_user_data (Examples.net 1 "b") = Ok VNone
    /\ DetailFetcher.process_csv_file Examples.ascii_lower Examples.net
         Examples.two_rows = (["a"; "b"], DetailFetcher.Saved t)
    /\ Csv.field t 0 "username" = Some (VStr "alice")
    /\ Csv.field t 1 "username" = Some (VStr "B")
    /\ Csv.field t 1 "username" <> Some Csv.restval.
Proof.
  eexists _, _. split_and!; [by vm_compute | by vm_compute; eauto
    | by vm_compute | by vm_compute | by vm_compute | by vm_compute
    | by vm_compute].
Qed.

(** C5 at a failing input: two rows, the lookup of [a] succeeds, the
    answer for [b] is the JSON text [{"data": null}] with status 200.
    [AttributeError] leaves [fetch_leetcode_user_data], which only catches
    [RequestException]; it reaches the [except Exception] of
    [process_csv_file] and no output is written: the row of [b], whose
    fetch failed, is dropped, and so is the row of [a].  When the fetch of
    [b] fails with a timeout instead, both rows are written. *)
Theorem null_data_aborts_bulk_run :
  DetailFetcher.fetch_leetcode_user_data (Examples.net_null 1 "b")
  = Raise AttributeError
  /\ DetailFetcher.process_csv_file Examples.ascii_lower Examples.net_null
       Examples.two_rows
     = (["a"; "b"], DetailFetcher.Failed AttributeError)
  /\ DetailFetcher.fetch_leetcode_user_data (Examples.net 1 "b") = Ok VNone
  /\ exists t,
       DetailFetcher.process_csv_file Examples.ascii_lower Examples.net
         Examples.two_rows = (["a"; "b"], DetailFetcher.Saved t)
       /\ length (Csv.lines t) = 2%nat
       /\ Csv.field t 1 "user_slug" = Some (VStr "b").
Proof.
  split_and!; [by vm_compute | by vm_compute | by vm_compute |].
  eexists. split_and!; by vm_compute.
Qed.

(** When the run writes its output, every input row with a slug has its
    line, in input order, whatever its fetch gave; the line of a row whose
    fetch returned nothing (request error or no such user) holds, under
    every column the row has, the row's own cell, and the empty
    placeholder under every other column. *)
Theorem failed_fetch_keeps_row (lower : string -> string)
    (net : nat -> string -> post_result) (rows : list Csv.row)
    (fetched : list string) (t : Csv.table) :
  DetailFetcher.process_csv_file lower net rows
  = (fetched, DetailFetcher.Saved t) ->
  length (Csv.lines t) = length (filter DetailFetcher.has_slug rows)
  /\ forall i row slug user_data,
       rows !! i = Some row ->
       DetailFetcher.slug_of row = Ok slug -> slug <> "" ->
       DetailFetcher.fetch_leetcode_user_data (net i slug) = Ok user_data ->
       truthy user_data = false ->
       exists line,
         Csv.lines t !! length (filter DetailFetcher.has_slug (take i rows))
         = Some line
         /\ (forall j c, Csv.columns t !! j = Some c ->
               line !! j = Some (match Csv.row_lookup row c with
                                 | Some v => Csv.cell v
                                 | None => VStr ""
                                 end))
         /\ (forall c, is_Some (Csv.row_lookup row c) -> c ∈ Csv.columns t).
Proof.
  unfold DetailFetcher.process_csv_file.
  destruct (DetailFetcher.collect lower net 0 rows) as [fetched' r] eqn:Hc.
  destruct r as [ds | e]; [| by intros [=]].
  destruct ds as [| d0 ds]; [by intros [=] |].
  destruct (Csv.write _ (d0 :: ds)) as [t' | e] eqn:Hw; [| by intros [=]].
  intros [= <- <-].
  destruct (write_table _ _ _ Hw) as [Hcols Hlines].
  destruct (collect_rows _ _ _ _ _ _ Hc) as [Hlen Hrows].
  split; [by rewrite Hlines, length_fmap |].
  intros i row slug user_data Hi Hslug Hne Hfetch Hfalsy.
  destruct (Hrows i row Hi) as (slug' & d & Hslug' & Hd & Hpos).
  { unfold DetailFetcher.has_slug. rewrite Hslug. simpl.
    by rewrite bool_decide_eq_false_2. }
  rewrite Hslug in Hslug'. injection Hslug' as <-.
  simpl in Hd. rewrite Hfetch in Hd. simpl in Hd.
  unfold DetailFetcher.combine in Hd. rewrite Hfalsy in Hd.
  injection Hd as <-.
  exists (Csv.project (Csv.columns t') (Csv.to_dict row)). split_and!.
  - by rewrite Hlines, list_lookup_fmap, Hpos, Hcols.
  - intros j c Hj. rewrite (project_lookup _ _ _ _ Hj), to_dict_lookup.
    by destruct (Csv.row_lookup row c).
  - intros c Hc'. rewrite Hcols. apply elem_of_fieldnames.
    exists (Csv.to_dict row). split.
    + by eapply list_elem_of_lookup_2.
    + apply dict_lookup_keys. rewrite to_dict_lookup.
      by apply fmap_is_Some.
Qed.

Lemma failed_fetch_keeps_row_witness :
  exists t,
    DetailFetcher.process_csv_file Examples.ascii_lower Examples.net
      Examples.two_rows = (["a"; "b"], DetailFetcher.Saved t)
    /\ length (Csv.lines t) = 2%nat.
Proof.
  eexists. split; [by vm_compute |].
  exact (proj1 (failed_fetch_keeps_row Examples.ascii_lower Examples.net
                  Examples.two_rows _ _ eq_refl)).
Defined.

(** * Rows without a slug *)

(** [process_csv_file], when no exception leaves its loop, issues a fetch
    for the rows with a slug and for no other row. *)
Lemma collect_fetched (lower : string -> string)
    (net : nat -> string -> post_result) (rows : list Csv.row) :
  forall (i0 : nat) (fetched : list string) (ds : list dict),
  DetailFetcher.collect lower net i0 rows = (fetched, Ok ds) ->
  fetched
  = omap (fun row =>
            match DetailFetcher.slug_of row with
            | Ok user_slug =>
                if truthy (VStr user_slug) then Some user_slug else None
            | Raise _ => None
            end) rows.
Proof.
  induction rows as [| row rest IH]; intros i0 fetched ds; simpl.
  - by intros [= <- <-].
  - destruct (DetailFetcher.slug_of row) as [user_slug | e];
      [| by intros [=]].
    destruct (bool_decide (user_slug = "")); simpl.
    + apply IH.
    + destruct (DetailFetcher.fetch_leetcode_user_data (net i0 user_slug)
                  ≫= DetailFetcher.combine lower row) as [d | e];
        [| by intros [=]].
      destruct (DetailFetcher.collect lower net (S i0) rest)
        as [fetched' [ds' | e]] eqn:Hrest; simpl; [| by intros [=]].
      intros [= <- <-]. f_equal. by eapply IH.
Qed.

(** C10 at a failing input: a row whose [user_slug] cell is three spaces.
    [process_csv] filters on the cell as read and strips afterwards, so the
    slug [""] is submitted, fetched and written as a row;
    [process_csv_file] strips first and skips the row.  A row too short to
    have a [user_slug] cell is dropped by [process_csv], while in
    [process_csv_file] it raises [AttributeError] and no output is
    written. *)
Theorem whitespace_slug_is_fetched :
  let blank : list Csv.row := [[("rank", Some "7"); ("user_slug", Some "   ")]] in
  let short : list Csv.row :=
    [[("rank", Some "1"); ("user_slug", Some "a")];
     [("rank", Some "7"); ("user_slug", None)]] in
  SchoolFetcher.user_slugs blank = [""]
  /\ SchoolFetcher.process_csv Examples.net blank [0%nat]
     = SchoolFetcher.Saved
         (Csv.Table ["user_slug"; "username"; "school"]
                    [[VStr ""; VStr ""; VStr ""]])
  /\ DetailFetcher.process_csv_file Examples.ascii_lower Examples.net blank
     = ([], DetailFetcher.NoData)
  /\ SchoolFetcher.user_slugs short = ["a"]
  /\ DetailFetcher.process_csv_file Examples.ascii_lower Examples.net short
     = (["a"], DetailFetcher.Failed AttributeError).
Proof. by vm_compute. Qed.

(** * Further properties of the scripts *)

(** ** Dicts: assignment, lookup and merge *)

Lemma dict_lookup_set_eq (d : dict) (k : string) (v : value) :
  dict_lookup (dict_set d k v) k = Some v.
Proof.
  induction d as [| [k' v'] d IH]; simpl.
  - by rewrite decide_True.
  - destruct (decide (k' = k)) as [-> | Hne]; simpl.
    + by rewrite decide_True.
    + by rewrite decide_False.
Qed.

Lemma dict_lookup_set_ne (d : dict) (k k' : string) (v : value) :
  k <> k' -> dict_lookup (dict_set d k v) k' = dict_lookup d k'.
Proof.
  intros Hne. induction d as [| [k0 v0] d IH]; simpl.
  - by rewrite decide_False.
  - destruct (decide (k0 = k)) as [-> | Hne0]; simpl.
    + by rewrite !decide_False.
    + by rewrite IH.
Qed.

Lemma dict_keys_set (d : dict) (k : string) (v : value) :
  dict_keys (dict_set d k v)
  = if decide (k ∈ dict_keys d) then dict_keys d else dict_keys d ++ [k].
Proof.
  unfold dict_keys. induction d as [| [k' v'] d IH]; [done |].
  cbn [dict_set]. destruct (decide (k' = k)) as [-> | Hne].
  - rewrite !fmap_cons. cbn [fst]. rewrite decide_True by left. done.
  - rewrite !fmap_cons, IH. cbn [fst].
    destruct (decide (k ∈ d.*1)) as [Hin | Hnin].
    + rewrite decide_True by (by right). done.
    + rewrite decide_False; [done |].
      intros [-> | Hin]%elem_of_cons; done.
Qed.

Lemma dict_set_NoDup (d : dict) (k : string) (v : value) :
  NoDup (dict_keys d) -> NoDup (dict_keys (dict_set d k v)).
Proof.
  intros Hd. rewrite dict_keys_set. case_decide; [done |].
  apply NoDup_app. split_and!; [done | | apply NoDup_singleton].
  intros k' Hk' ->%list_elem_of_singleton. done.
Qed.

Lemma dict_lookup_None (d : dict) (k : string) :
  k ∉ dict_keys d -> dict_lookup d k = None.
Proof.
  induction d as [| [k' v'] d IH]; simpl; [done |].
  intros Hnin. rewrite decide_False.
  - apply IH. intros Hin. apply Hnin. by right.
  - intros ->. apply Hnin. left.
Qed.

(** [{**d1, **d2}[k]] is [d2[k]] when [d2] has [k], and [d1[k]]
    otherwise. *)
Lemma dict_lookup_merge (d1 d2 : dict) (k : string) :
  NoDup (dict_keys d2) ->
  dict_lookup (dict_merge d1 d2) k
  = match dict_lookup d2 k with
    | Some v => Some v
    | None => dict_lookup d1 k
    end.
Proof.
  unfold dict_merge. revert d1.
  induction d2 as [| [k' v'] d2 IH]; intros d1 Hd; simpl; [done |].
  apply NoDup_cons in Hd as [Hk' Hd]. rewrite IH by done.
  destruct (decide (k' = k)) as [-> | Hne].
  - rewrite (dict_lookup_None d2 k) by done. apply dict_lookup_set_eq.
  - by rewrite dict_lookup_set_ne by done.
Qed.

(** ** Loops that stop at the first exception *)

Lemma mapM_Ok_Forall2 {A B} (f : A -> result B) (l : list A) (l' : list B) :
  mapM f l = Ok l' -> Forall2 (fun x y => f x = Ok y) l l'.
Proof.
  revert l'. induction l as [| x l IH]; intros l'.
  - intros [= <-]. constructor.
  - change (mapM f (x :: l)) with (y ← f x; k ← mapM f l; Ok (y :: k)).
    destruct (f x) as [y |] eqn:Hy; simpl; [| done].
    destruct (mapM f l) as [k |]; simpl; [| done].
    intros [= <-]. constructor; [done | by apply IH].
Qed.

Lemma mapM_Ok_total {A B} (f : A -> result B) (l : list A) :
  Forall (fun x => raised (f x) = false) l -> raised (mapM f l) = false.
Proof.
  induction 1 as [| x l Hx _ IH]; [done |].
  change (mapM f (x :: l)) with (y ← f x; k ← mapM f l; Ok (y :: k)).
  destruct (f x); [| done]. simpl. by destruct (mapM f l).
Qed.

Lemma foldlM_invariant {A B} (P : A -> Prop) (f : A -> B -> result A)
    (l : list B) :
  (forall acc x acc', P acc -> f acc x = Ok acc' -> P acc') ->
  forall acc acc', P acc -> foldlM f acc l = Ok acc' -> P acc'.
Proof.
  intros Hf. induction l as [| x l IH]; intros acc acc' Hacc; simpl.
  - by intros [= <-].
  - destruct (f acc x) as [acc0 |] eqn:Hx; simpl; [| done].
    apply IH. by eapply Hf.
Qed.

(** ** leetcode_scraper.py: what a run loads, whatever the site answers *)

Lemma fetched_pages_one (max_page page : Z) :
  Scraper.fetched_pages (Scraper.page_events max_page page) = [page].
Proof. unfold Scraper.page_events. by destruct (page <? max_page). Qed.

Lemma scrape_loop_trace (site : Scraper.browser) (region : string)
    (max_page : Z) (pages : list Z) :
  forall all_rankings,
  let run := Scraper.scrape_loop site region max_page pages all_rankings in
  Scraper.fetched_pages run.1 `prefix_of` pages
  /\ match run.2 with
     | Ok _ => Scraper.fetched_pages run.1 = pages
     | Raise e =>
         exists page,
           last (Scraper.fetched_pages run.1) = Some page
           /\ Scraper.page_rankings site region page = Raise e
     end.
Proof.
  induction pages as [| page rest IH]; intros all_rankings;
    cbn [Scraper.scrape_loop].
  - split; [done | done].
  - destruct (Scraper.page_rankings site region page) as [rs | e] eqn:Hrs.
    + specialize (IH (match rs with
                      | [] => all_rankings
                      | _ => all_rankings ++ rs
                      end)).
      destruct (Scraper.scrape_loop site region max_page rest _)
        as [events r]. cbn [fst snd] in *.
      rewrite fetched_pages_app, fetched_pages_one. cbn [app].
      destruct IH as [Hpre Hres]. split; [by apply prefix_cons |].
      destruct r as [? | e].
      * by rewrite Hres.
      * destruct Hres as (page' & Hlast & Hraise). exists page'.
        split; [| done].
        destruct (Scraper.fetched_pages events); [done | done].
    + simpl. split.
      * apply prefix_cons, prefix_nil.
      * by exists page.
Qed.

(** Whatever the pages answer, a run never loads a page outside
    [min_page..max_page], never loads one twice and never out of order:
    the pages loaded are an initial segment of the range.  It is the whole
    range when the run returns; when an exception leaves the run, the last
    page loaded is the one whose payload raised it. *)
Theorem scrape_pages_loads_prefix (site : Scraper.browser)
    (min_page max_page : Z) (region : string) :
  let run := Scraper.scrape_pages site min_page max_page region in
  let pages := seqZ min_page (max_page - min_page + 1) in
  Scraper.fetched_pages run.1 `prefix_of` pages
  /\ match run.2 with
     | Ok _ => Scraper.fetched_pages run.1 = pages
     | Raise e =>
         exists page,
           last (Scraper.fetched_pages run.1) = Some page
           /\ min_page <= page <= max_page
           /\ Scraper.page_rankings site region page = Raise e
     end.
Proof.
  intros run pages.
  pose proof (scrape_loop_trace site region max_page pages []) as Hloop.
  subst run. unfold Scraper.scrape_pages. rewrite range_inclusive.
  fold pages.
  destruct (Scraper.scrape_loop site region max_page pages [])
    as [events r]. simpl in *.
  destruct Hloop as [Hpre Hres]. split; [done |].
  destruct r as [rs | e]; simpl.
  - by destruct rs.
  - destruct Hres as (page & Hlast & Hraise). exists page.
    split_and!; [done | | | done];
      (assert (Hin : page ∈ pages);
       [ destruct Hpre as [k ->]; apply elem_of_app; left;
         by apply last_Some_elem_of in Hlast
       | apply elem_of_seqZ in Hin; lia ]).
Qed.

(** ** leetcode_scraper.py: the records of one page *)

Lemma is_prefix_app (p x : string) : is_prefix p (p +:+ x) = true.
Proof.
  induction p as [| a p IH]; [done |].
  change (String a p +:+ x) with (String a (p +:+ x)). simpl.
  by rewrite bool_decide_eq_true_2.
Qed.

Lemma keeps_base_set (r0 r : dict) (key : string) (v : value) :
  Scraper.keeps_base r0 r -> is_prefix "problem_" key = true ->
  Scraper.keeps_base r0 (dict_set r key v).
Proof.
  intros (Hlen & Htake & Hlook) Hkey. unfold Scraper.keeps_base.
  rewrite dict_keys_set. split_and!.
  - case_decide; [done |]. rewrite length_app. lia.
  - case_decide; [done |]. by rewrite take_app_le.
  - intros k Hk. rewrite dict_lookup_set_ne; [by apply Hlook |].
    intros ->. congruence.
Qed.

Lemma add_submission_keeps_base (r0 r r' : dict) (sub : string * value) :
  Scraper.keeps_base r0 r -> Scraper.add_submission r sub = Ok r' ->
  Scraper.keeps_base r0 r'.
Proof.
  intros Hr. destruct sub as [problem_id sub_info].
  unfold Scraper.add_submission.
  destruct sub_info; simpl; try done.
  intros [= <-].
  repeat (apply keeps_base_set; [| apply is_prefix_app]). done.
Qed.

Lemma add_submission_shaped (subs : dict) :
  forallb (fun sub => Scraper.is_dict sub.2) subs = true ->
  forall r, raised (foldlM Scraper.add_submission r subs) = false.
Proof.
  induction subs as [| [problem_id sub_info] subs IH]; intros Hall r;
    [done |].
  simpl in Hall. apply andb_prop in Hall as [Hsub Hall].
  destruct sub_info; try done. simpl. by apply IH.
Qed.

Lemma parse_user_record (user : value) (r : dict) :
  Scraper.parse_user user = Ok r ->
  exists u, user = VDict u
    /\ take 9 (dict_keys r) = Scraper.base_columns
    /\ forall k, k ∈ Scraper.base_columns ->
         dict_lookup r k = Some (default VNone (dict_lookup u k)).
Proof.
  unfold Scraper.parse_user. destruct user as [| | | | | u]; try done.
  simpl. intros Hr. exists u. split; [done |].
  destruct (default (VDict []) (dict_lookup u "submissions"));
    simpl in Hr; try done.
  match type of Hr with
  | foldlM _ ?r0 _ = _ =>
      apply (foldlM_invariant (Scraper.keeps_base r0)) in Hr
  end.
  - destruct Hr as (_ & Htake & Hlook). split; [by rewrite Htake |].
    intros k Hk. rewrite Hlook.
    + unfold Scraper.base_columns in Hk.
      repeat (apply elem_of_cons in Hk as [-> | Hk]; [done |]).
      by apply elem_of_nil in Hk.
    + unfold Scraper.base_columns in Hk.
      repeat (apply elem_of_cons in Hk as [-> | Hk]; [done |]).
      by apply elem_of_nil in Hk.
  - intros acc sub acc'. apply add_submission_keeps_base.
  - split_and!; [simpl; lia | done | done].
Qed.

Lemma parse_user_shaped (user : value) :
  Scraper.shaped_user user = true ->
  raised (Scraper.parse_user user) = false.
Proof.
  unfold Scraper.shaped_user, Scraper.parse_user.
  destruct user as [| | | | | u]; try done. simpl.
  destruct (dict_lookup u "submissions") as [[| | | | | subs] |]; try done.
  simpl. intros Hall. by apply add_submission_shaped.
Qed.

(** For a payload whose [total_rank] is a list, [parse_ranking_data]
    returns, when it returns, exactly one record per listed user, in the
    order of the list, each starting with the nine fixed columns and
    holding under each of them the user's value ([None] where the user has
    none).  It does return when every user is an object whose
    [submissions], if present, is an object of objects. *)
Theorem parse_ranking_data_records (d : dict) (users : list value) :
  dict_lookup d "total_rank" = Some (VList users) ->
  (forall records,
     Scraper.parse_ranking_data (VDict d) = Ok records ->
     Forall2 (fun user r =>
                exists u, user = VDict u
                  /\ take 9 (dict_keys r) = Scraper.base_columns
                  /\ forall k, k ∈ Scraper.base_columns ->
                       dict_lookup r k
                       = Some (default VNone (dict_lookup u k)))
             users records)
  /\ (forallb Scraper.shaped_user users = true ->
      raised (Scraper.parse_ranking_data (VDict d)) = false).
Proof.
  intros Htotal.
  assert (Hparse : Scraper.parse_ranking_data (VDict d)
                   = mapM Scraper.parse_user users).
  { unfold Scraper.parse_ranking_data.
    assert (Ht : truthy (VDict d) = true) by (by destruct d).
    rewrite Ht. cbn [negb]. unfold contains, getitem. rewrite Htotal.
    by rewrite bool_decide_eq_true_2 by eauto. }
  rewrite Hparse. split.
  - intros records Hrecords. apply mapM_Ok_Forall2 in Hrecords.
    eapply Forall2_impl; [exact Hrecords |].
    intros user r. apply parse_user_record.
  - intros Hall. apply mapM_Ok_total. apply Forall_forall.
    intros user Huser. apply parse_user_shaped.
    rewrite forallb_forall in Hall. apply Hall.
    by apply list_elem_of_In.
Qed.

Lemma parse_ranking_data_records_witness :
  dict_lookup [("total_rank",
                VList [VDict [("rank", VInt 1); ("username", VStr "u")]])]
    "total_rank"
  = Some (VList [VDict [("rank", VInt 1); ("username", VStr "u")]])
  /\ raised (Scraper.parse_ranking_data (Examples.ranked "u")) = false.
Proof.
  split; [reflexivity |].
  apply (parse_ranking_data_records
           [("total_rank",
             VList [VDict [("rank", VInt 1); ("username", VStr "u")]])]
           [VDict [("rank", VInt 1); ("username", VStr "u")]] eq_refl).
  reflexivity.
Defined.

(** ** user_detail_leetcode_fetcher.py: one lookup *)

(** [fetch_leetcode_user_data] gives [None], or the [matchedUser] of a
    response with a good status, which then is not [None]; an exception
    that leaves it is never a [RequestException]. *)
Theorem fetch_leetcode_user_data_outcomes (r : post_result) :
  match DetailFetcher.fetch_leetcode_user_data r with
  | Ok v =>
      v = VNone
      \/ exists status_code body d,
           r = Response status_code (Some (VDict body))
           /\ ~ (400 <= status_code < 600)
           /\ dict_lookup body "data" = Some (VDict d)
           /\ dict_lookup d "matchedUser" = Some v
           /\ v <> VNone
  | Raise e => is_RequestException e = false
  end.
Proof.
  unfold DetailFetcher.fetch_leetcode_user_data, DetailFetcher.fetch_try.
  destruct r as [e | status_code body]; simpl.
  { destruct (is_RequestException e) eqn:He; [by left | done]. }
  unfold raise_for_status.
  destruct ((400 <=? status_code) && (status_code <? 600)) eqn:Hs; simpl;
    [by left |].
  assert (Hstatus : ~ (400 <= status_code < 600)).
  { apply andb_false_iff in Hs as [Hs | Hs]; lia. }
  destruct body as [[| | | | | body] |]; simpl; try done; [| by left].
  destruct (dict_lookup body "data") as [[| | | | | d] |] eqn:Hd; simpl;
    try done; [| by left].
  destruct (dict_lookup d "matchedUser") as [v |] eqn:Hv; simpl;
    [| by left].
  destruct v; simpl; try (by left);
    right; eexists _, _, _; split_and!; done.
Qed.

(** ** user_detail_leetcode_fetcher.py: which lookups a run issues *)

Lemma collect_fetched_prefix (lower : string -> string)
    (net : nat -> string -> post_result) (rows : list Csv.row) :
  forall i0,
  (DetailFetcher.collect lower net i0 rows).1
  `prefix_of` omap (fun row =>
                      match DetailFetcher.slug_of row with
                      | Ok user_slug =>
                          if truthy (VStr user_slug) then Some user_slug
                          else None
                      | Raise _ => None
                      end) rows.
Proof.
  induction rows as [| row rest IH]; intros i0; simpl; [done |].
  destruct (DetailFetcher.slug_of row) as [user_slug | e];
    [| apply prefix_nil].
  destruct (bool_decide (user_slug = "")); simpl; [apply IH |].
  destruct (DetailFetcher.fetch_leetcode_user_data (net i0 user_slug)
              ≫= DetailFetcher.combine lower row) as [d | e]; simpl.
  - specialize (IH (S i0)).
    destruct (DetailFetcher.collect lower net (S i0) rest) as [fetched r].
    by apply prefix_cons.
  - apply prefix_cons, prefix_nil.
Qed.

(** Whatever the rows and the answers, and however the run ends, the
    lookups [process_csv_file] issues are an initial segment of the
    stripped slugs of the rows that have one, in row order: no lookup for
    a row without a slug, none for the empty slug.  When the run ends
    without an exception it is all of them. *)
Theorem fetch_only_rows_with_slug (lower : string -> string)
    (net : nat -> string -> post_result) (rows : list Csv.row) :
  let run := DetailFetcher.process_csv_file lower net rows in
  let slugs :=
    omap (fun row =>
            match DetailFetcher.slug_of row with
            | Ok user_slug =>
                if truthy (VStr user_slug) then Some user_slug else None
            | Raise _ => None
            end) rows in
  run.1 `prefix_of` slugs
  /\ Forall (fun user_slug => user_slug <> "") run.1
  /\ match run.2 with
     | DetailFetcher.Failed _ => True
     | _ => run.1 = slugs
     end.
Proof.
  intros run slugs.
  assert (Hpre : run.1 `prefix_of` slugs).
  { subst run. unfold DetailFetcher.process_csv_file.
    pose proof (collect_fetched_prefix lower net rows 0) as Hpre.
    by destruct (DetailFetcher.collect lower net 0 rows). }
  split_and!; [done | |].
  - apply Forall_forall. intros user_slug Hin.
    assert (Hslug : user_slug ∈ slugs).
    { destruct Hpre as [k ->]. apply elem_of_app. by left. }
    apply list_elem_of_omap in Hslug as (row & _ & Hrow).
    destruct (DetailFetcher.slug_of row) as [s |]; [| done].
    destruct (truthy (VStr s)) eqn:Ht; [| done].
    injection Hrow as ->. intros ->. done.
  - subst run. unfold DetailFetcher.process_csv_file.
    destruct (DetailFetcher.collect lower net 0 rows) as [fetched r] eqn:Hc.
    destruct r as [ds | e]; simpl; [| done].
    pose proof (collect_fetched _ _ _ _ _ _ Hc) as Hf.
    destruct ds as [| d ds]; [done |].
    by destruct (Csv.write _ (d :: ds)).
Qed.

(** ** user_detail_leetcode_fetcher.py: writing the output *)

(** A writer whose columns are the union of the records' keys rejects no
    record. *)
Lemma write_all_fieldnames (ds : list dict) :
  Csv.write (DetailFetcher.fieldnames ds) ds
  = Ok (Csv.Table (DetailFetcher.fieldnames ds)
          (Csv.project (DetailFetcher.fieldnames ds) <$> ds)).
Proof.
  unfold Csv.write.
  assert (Hls : forall ds',
            ds' ⊆ ds ->
            mapM (Csv.dict_to_list (DetailFetcher.fieldnames ds)) ds'
            = Ok (Csv.project (DetailFetcher.fieldnames ds) <$> ds')).
  { induction ds' as [| d ds' IH]; intros Hsub; [done |].
    change (mapM (Csv.dict_to_list (DetailFetcher.fieldnames ds)) (d :: ds'))
      with (y ← Csv.dict_to_list (DetailFetcher.fieldnames ds) d;
            k ← mapM (Csv.dict_to_list (DetailFetcher.fieldnames ds)) ds';
            Ok (y :: k)).
    rewrite IH by set_solver. unfold Csv.dict_to_list.
    assert (Hkeys : forallb (fun k => bool_decide
                       (k ∈ DetailFetcher.fieldnames ds)) (dict_keys d)
                    = true).
    { apply forallb_forall. intros k Hk%list_elem_of_In.
      apply bool_decide_eq_true_2, elem_of_fieldnames.
      exists d. split; [set_solver | done]. }
    by rewrite Hkeys. }
  by rewrite Hls.
Qed.

(** For an input file none of whose data lines is longer than its header
    (the rows of [Csv.row]), and errors while encoding or writing the
    output file aside (the model has none): the output of
    [process_csv_file] is decided by its loop alone.  When the loop ends
    with records, the file is written with one line per record under the
    sorted union of their keys (the writer never finds an unknown field);
    with no record nothing is written; and a failure is an exception that
    left the loop. *)
Theorem output_decided_by_loop (lower : string -> string)
    (net : nat -> string -> post_result) (rows : list Csv.row) :
  (DetailFetcher.process_csv_file lower net rows).2
  = match (DetailFetcher.collect lower net 0 rows).2 with
    | Raise e => DetailFetcher.Failed e
    | Ok [] => DetailFetcher.NoData
    | Ok all_user_data =>
        DetailFetcher.Saved
          (Csv.Table (DetailFetcher.fieldnames all_user_data)
             (Csv.project (DetailFetcher.fieldnames all_user_data)
              <$> all_user_data))
    end.
Proof.
  unfold DetailFetcher.process_csv_file.
  destruct (DetailFetcher.collect lower net 0 rows) as [fetched [ds | e]];
    simpl; [| done].
  destruct ds as [| d ds]; [done |]. by rewrite write_all_fieldnames.
Qed.

(** The columns do not depend on the order of the records, nor on how
    often a record occurs. *)
Theorem fieldnames_order_independent (records records' : list dict) :
  (forall d, d ∈ records <-> d ∈ records') ->
  DetailFetcher.fieldnames records = DetailFetcher.fieldnames records'.
Proof.
  intros Hsame. unfold DetailFetcher.fieldnames. f_equal. f_equal.
  apply set_eq. intros k. rewrite !elem_of_all_fieldnames.
  split; intros (d & Hd & Hk); exists d; split; try done; by apply Hsame.
Qed.

Lemma fieldnames_order_independent_witness :
  DetailFetcher.fieldnames
    [[("b", VNone)]; [("a", VNone)]; [("b", VNone)]]
  = DetailFetcher.fieldnames [[("a", VNone)]; [("b", VNone)]].
Proof.
  apply fieldnames_order_independent. intros d.
  rewrite !elem_of_cons, !elem_of_nil. tauto.
Defined.

(** ** user_detail_leetcode_fetcher.py: the parsed profile *)

(** Steps through a chain of binds that ended in [Ok]. *)
Ltac bind_inv H :=
  repeat match type of H with
         | mbind _ ?m = Ok _ =>
             let E := fresh "E" in
             destruct m eqn:E; cbn [mbind result_bind] in H;
             [| discriminate H]
         end.

Lemma elem_of_dict_keys_set (d : dict) (k k' : string) (v : value) :
  k' ∈ dict_keys (dict_set d k v) <-> k' ∈ dict_keys d \/ k' = k.
Proof. rewrite dict_keys_set. case_decide; set_solver. Qed.

Lemma profile_shape_set (parsed : dict) (k : string) (v : value) :
  DetailFetcher.profile_shape parsed ->
  DetailFetcher.profile_shape (dict_set parsed k v).
Proof.
  intros (Hnd & Hlen & Htake). split_and!.
  - by apply dict_set_NoDup.
  - rewrite dict_keys_set. case_decide; [done |]. rewrite length_app. lia.
  - rewrite dict_keys_set. case_decide; [done |]. by rewrite take_app_le.
Qed.

Lemma add_counts_profile_shape (lower : string -> string)
    (submit_stats : value) (k suffix : string) (parsed parsed' : dict) :
  DetailFetcher.add_counts lower submit_stats k suffix parsed = Ok parsed' ->
  DetailFetcher.profile_shape parsed -> DetailFetcher.profile_shape parsed'.
Proof.
  unfold DetailFetcher.add_counts. intros H Hshape. bind_inv H.
  match type of H with
  | (if truthy ?x then _ else _) = _ =>
      destruct (truthy x); [| by injection H as <-]
  end.
  bind_inv H.
  eapply (foldlM_invariant DetailFetcher.profile_shape); [| done | exact H].
  intros acc item acc' Hacc Hitem. cbv beta in Hitem. bind_inv Hitem.
  injection Hitem as <-. by apply profile_shape_set.
Qed.

Lemma badge_fields_shape (parsed : dict) (v1 v2 v3 : value) :
  DetailFetcher.profile_shape parsed ->
  let p := dict_set (dict_set (dict_set parsed "total_badges" v1)
                       "badge_names" v2) "active_badge" v3 in
  NoDup (dict_keys p)
  /\ take 13 (dict_keys p) = DetailFetcher.profile_columns
  /\ forall k, k ∈ ["total_badges"; "badge_names"; "active_badge"] ->
       k ∈ dict_keys p.
Proof.
  intros Hshape p.
  destruct (profile_shape_set _ "active_badge" v3
              (profile_shape_set _ "badge_names" v2
                 (profile_shape_set _ "total_badges" v1 Hshape)))
    as (Hnd & _ & Htake).
  split_and!; [done | done |].
  intros k Hk. subst p. rewrite !elem_of_dict_keys_set. set_solver.
Qed.

Lemma profile_literal_shape (v1 v2 v3 v4 v5 v6 v7 v8 v9 v10 v11 v12 v13
    : value) :
  DetailFetcher.profile_shape
    [("username", v1); ("real_name", v2); ("country", v3); ("company", v4);
     ("school_college", v5); ("ranking", v6); ("reputation", v7);
     ("star_rating", v8); ("about_me", v9); ("birthday", v10);
     ("avatar", v11); ("websites", v12); ("skill_tags", v13)].
Proof.
  split_and!; [| simpl; lia | reflexivity].
  apply (bool_decide_unpack _). by vm_compute.
Qed.

Lemma parse_user_data_shape (lower : string -> string)
    (user_data : value) (parsed : dict) :
  truthy user_data = true ->
  DetailFetcher.parse_user_data lower user_data = Ok parsed ->
  NoDup (dict_keys parsed)
  /\ take 13 (dict_keys parsed) = DetailFetcher.profile_columns
  /\ forall k, k ∈ ["total_badges"; "badge_names"; "active_badge"] ->
       k ∈ dict_keys parsed.
Proof.
  intros Ht H. unfold DetailFetcher.parse_user_data in H.
  rewrite Ht in H. cbn [negb] in H. bind_inv H.
  repeat match goal with
         | E : DetailFetcher.add_counts _ _ _ _ ?p = Ok ?q |- _ =>
             assert (DetailFetcher.profile_shape q)
               by (apply (add_counts_profile_shape _ _ _ _ _ _ E);
                   first [assumption | apply profile_literal_shape]);
             clear E
         end.
  match type of H with
  | (if truthy ?x then _ else _) = _ => destruct (truthy x)
  end.
  - bind_inv H. injection H as <-. by apply badge_fields_shape.
  - injection H as <-. by apply badge_fields_shape.
Qed.

(** The record [parse_user_data] builds from a truthy [matchedUser], when
    it builds one: no field name twice, the thirteen profile fields first
    and in their fixed order, then the per-difficulty counts, and the
    three badge fields always present. *)
Theorem parse_user_data_fields (lower : string -> string)
    (user_data : value) (parsed : dict) :
  truthy user_data = true ->
  DetailFetcher.parse_user_data lower user_data = Ok parsed ->
  NoDup (dict_keys parsed)
  /\ take 13 (dict_keys parsed) = DetailFetcher.profile_columns
  /\ forall k, k ∈ ["total_badges"; "badge_names"; "active_badge"] ->
       k ∈ dict_keys parsed.
Proof. apply parse_user_data_shape. Qed.

Lemma parse_user_data_fields_witness :
  exists parsed,
    truthy Examples.alice = true
    /\ DetailFetcher.parse_user_data Examples.ascii_lower Examples.alice
       = Ok parsed
    /\ NoDup (dict_keys parsed).
Proof.
  eexists. split; [reflexivity |]. split; [by vm_compute |].
  exact (proj1 (parse_user_data_fields Examples.ascii_lower Examples.alice
                  _ eq_refl eq_refl)).
Defined.

(** ** user_detail_leetcode_fetcher.py: the line of a row with a profile *)

(** When the run writes its output, the line of a row whose lookup gave a
    profile holds, under every column, the parsed field of that name if
    there is one (it overrides an input column of the same name), else the
    row's own cell, else the empty placeholder; and every parsed field has
    its column. *)
Theorem fetched_fields_override (lower : string -> string)
    (net : nat -> string -> post_result) (rows : list Csv.row)
    (fetched : list string) (t : Csv.table) :
  DetailFetcher.process_csv_file lower net rows
  = (fetched, DetailFetcher.Saved t) ->
  forall i row slug user_data parsed,
    rows !! i = Some row ->
    DetailFetcher.slug_of row = Ok slug -> slug <> "" ->
    DetailFetcher.fetch_leetcode_user_data (net i slug) = Ok user_data ->
    truthy user_data = true ->
    DetailFetcher.parse_user_data lower user_data = Ok parsed ->
    exists line,
      Csv.lines t !! length (filter DetailFetcher.has_slug (take i rows))
      = Some line
      /\ (forall j c, Csv.columns t !! j = Some c ->
            line !! j
            = Some (match dict_lookup parsed c with
                    | Some v => v
                    | None =>
                        match Csv.row_lookup row c with
                        | Some v => Csv.cell v
                        | None => VStr ""
                        end
                    end))
      /\ (forall c, c ∈ dict_keys parsed -> c ∈ Csv.columns t).
Proof.
  unfold DetailFetcher.process_csv_file.
  destruct (DetailFetcher.collect lower net 0 rows) as [fetched' r] eqn:Hc.
  destruct r as [ds | e]; [| by intros [=]].
  destruct ds as [| d0 ds]; [by intros [=] |].
  destruct (Csv.write _ (d0 :: ds)) as [t' | e] eqn:Hw; [| by intros [=]].
  intros [= <- <-].
  destruct (write_table _ _ _ Hw) as [Hcols Hlines].
  destruct (collect_rows _ _ _ _ _ _ Hc) as [_ Hrows].
  intros i row slug user_data parsed Hi Hslug Hne Hfetch Htruthy Hparse.
  destruct (Hrows i row Hi) as (slug' & d & Hslug' & Hd & Hpos).
  { unfold DetailFetcher.has_slug. rewrite Hslug. simpl.
    by rewrite bool_decide_eq_false_2. }
  rewrite Hslug in Hslug'. injection Hslug' as <-.
  simpl in Hd. rewrite Hfetch in Hd. simpl in Hd.
  unfold DetailFetcher.combine in Hd. rewrite Htruthy, Hparse in Hd.
  injection Hd as <-.
  destruct (parse_user_data_shape lower user_data parsed Htruthy Hparse)
    as (Hnd & _ & _).
  exists (Csv.project (Csv.columns t')
            (dict_merge (Csv.to_dict row) parsed)).
  split_and!.
  - by rewrite Hlines, list_lookup_fmap, Hpos, Hcols.
  - intros j c Hj.
    rewrite (project_lookup _ _ _ _ Hj), dict_lookup_merge by done.
    destruct (dict_lookup parsed c); [done |].
    rewrite to_dict_lookup. by destruct (Csv.row_lookup row c).
  - intros c Hc'. rewrite Hcols. apply elem_of_fieldnames.
    exists (dict_merge (Csv.to_dict row) parsed). split.
    + by eapply list_elem_of_lookup_2.
    + apply dict_lookup_keys. rewrite dict_lookup_merge by done.
      destruct (dict_lookup parsed c) eqn:Hl; [done |].
      exfalso. clear -Hc' Hl. unfold dict_keys in Hc'.
      induction parsed as [| [k v] parsed IH]; [by apply elem_of_nil in Hc' |].
      simpl in Hl. destruct (decide (k = c)); [done |].
      apply elem_of_cons in Hc' as [-> | Hc']; [done | by apply IH].
Qed.

Lemma fetched_fields_override_witness :
  exists line,
    match (DetailFetcher.process_csv_file Examples.ascii_lower Examples.net
             Examples.two_rows).2 with
    | DetailFetcher.Saved t => Csv.lines t !! 0%nat = Some line
    | _ => False
    end.
Proof.
  destruct (fetched_fields_override Examples.ascii_lower Examples.net
              Examples.two_rows _ _ eq_refl 0%nat
              [("user_slug", Some "a"); ("username", Some "A")] "a"
              Examples.alice _ eq_refl eq_refl ltac:(done) eq_refl eq_refl
              eq_refl) as (line & Hline & _).
  exists line. exact Hline.
Defined.

(** * user_detail_by_id.py *)

Lemma joined_same (profile : value) (k : string) :
  DetailById.joined profile k = DetailFetcher.joined profile k.
Proof.
  unfold DetailById.joined, DetailFetcher.joined, DetailById.or_empty.
  destruct profile as [| | | | | p]; try done. simpl.
  destruct (dict_lookup p k) as [v |]; simpl; [| done].
  by destruct (truthy v).
Qed.

Lemma getitem_get (item : value) (k : string) (dflt x : value) :
  getitem item k = Ok x -> get item k dflt = Ok x.
Proof.
  destruct item as [| | | | | d]; try done. simpl.
  destruct (dict_lookup d k); [| done]. by intros [= ->].
Qed.

Lemma falsy_iter_empty (v : value) (its : list value) :
  truthy v = false -> iter v = Ok its -> its = [].
Proof.
  destruct v as [| | | s | l | d]; try done; simpl.
  - destruct s; [by intros _ [= <-] | done].
  - destruct l; [by intros _ [= <-] | done].
  - destruct d; [by intros _ [= <-] | done].
Qed.

Lemma add_counts_refines (lower : string -> string) (submit_stats : value)
    (k suffix : string) (parsed parsed' : dict) :
  DetailById.add_counts lower submit_stats k suffix parsed = Ok parsed' ->
  DetailFetcher.add_counts lower submit_stats k suffix parsed = Ok parsed'.
Proof.
  unfold DetailById.add_counts, DetailFetcher.add_counts.
  destruct submit_stats as [| | | | | ss]; try done. simpl.
  destruct (dict_lookup ss k) as [v |] eqn:Hv; simpl;
    [| by intros [= <-]].
  destruct (iter v) as [its |] eqn:Hits; simpl; [| done].
  destruct (truthy v) eqn:Ht.
  - simpl. clear Hits. revert parsed.
    induction its as [| item its IH]; intros parsed; simpl; [done |].
    destruct (getitem item "difficulty") as [d |] eqn:Hd; simpl; [| done].
    destruct (DetailFetcher.lower_of lower d) as [low |] eqn:Hlow; simpl;
      [| done].
    destruct (getitem item "count") as [c |] eqn:Hc; simpl; [| done].
    rewrite (getitem_get _ _ _ _ Hd), (getitem_get _ _ _ _ Hc). simpl.
    rewrite Hlow. simpl. apply IH.
  - rewrite (falsy_iter_empty v its Ht Hits). simpl. done.
Qed.

(** The two [parse_user_data] agree wherever the stricter one, of
    [user_detail_by_id.py], returns: for a truthy [matchedUser] on which it
    builds a record, the bulk fetcher's builds the same record. *)
Theorem parse_user_data_refines (lower : string -> string) (user : value)
    (parsed : dict) :
  truthy user = true ->
  DetailById.parse_user_data lower user = Ok parsed ->
  DetailFetcher.parse_user_data lower user = Ok parsed.
Proof.
  intros Ht. unfold DetailById.parse_user_data,
    DetailFetcher.parse_user_data.
  rewrite Ht. cbn [negb]. intros H.
  repeat match type of H with
         | mbind _ (DetailById.joined ?p ?k) = Ok _ =>
             rewrite (joined_same p k) in H
         | mbind _ ?m = Ok _ =>
             let E := fresh "E" in
             destruct m eqn:E; cbn [mbind result_bind] in H |- *;
             [| discriminate H];
             try (apply add_counts_refines in E; rewrite E;
                  cbn [mbind result_bind])
         end.
  exact H.
Qed.

Lemma parse_user_data_refines_witness :
  truthy Examples.alice = true
  /\ DetailFetcher.parse_user_data Examples.ascii_lower Examples.alice
     = DetailById.parse_user_data Examples.ascii_lower Examples.alice.
Proof.
  split; [reflexivity |].
  destruct (DetailById.parse_user_data Examples.ascii_lower Examples.alice)
    as [parsed |] eqn:Hp; [| by vm_compute in Hp].
  exact (parse_user_data_refines Examples.ascii_lower Examples.alice parsed
           eq_refl Hp).
Defined.

Lemma dict_keys_lookup (d : dict) (k : string) :
  k ∈ dict_keys d -> is_Some (dict_lookup d k).
Proof.
  unfold dict_keys. induction d as [| [k' v] d IH]; simpl.
  - by intros ?%elem_of_nil.
  - destruct (decide (k' = k)); [by eauto |].
    intros [-> | Hin]%elem_of_cons; [done | by apply IH].
Qed.

Lemma dict_to_list_known (fieldnames : list string) (d : dict) :
  (forall k, k ∈ dict_keys d -> k ∈ fieldnames) ->
  Csv.dict_to_list fieldnames d = Ok (Csv.project fieldnames d).
Proof.
  intros Hsub. unfold Csv.dict_to_list.
  assert (Hall : forallb (fun k => bool_decide (k ∈ fieldnames))
                   (dict_keys d) = true).
  { apply forallb_forall. intros k Hk%list_elem_of_In.
    by apply bool_decide_eq_true_2, Hsub. }
  by rewrite Hall.
Qed.

(** [save_to_csv] always writes its file: the columns are the record's
    keys in ascending order, there is exactly one line, and the cell under
    every column is the record's value for that key, never the
    placeholder. *)
Theorem save_to_csv_line (parsed_data : dict) :
  exists line,
    DetailById.save_to_csv parsed_data
    = Some (Csv.Table (sorted (dict_keys parsed_data)) [line])
    /\ forall j c, sorted (dict_keys parsed_data) !! j = Some c ->
         exists v, dict_lookup parsed_data c = Some v /\ line !! j = Some v.
Proof.
  exists (Csv.project (sorted (dict_keys parsed_data)) parsed_data). split.
  - unfold DetailById.save_to_csv, DetailById.fieldnames, Csv.write.
    change (mapM (Csv.dict_to_list (sorted (dict_keys parsed_data)))
              [parsed_data])
      with (y ← Csv.dict_to_list (sorted (dict_keys parsed_data))
                  parsed_data; Ok [y]).
    rewrite dict_to_list_known; [done |].
    intros k Hk. by apply elem_of_sorted.
  - intros j c Hj.
    assert (Hc : c ∈ dict_keys parsed_data).
    { apply elem_of_sorted. by eapply list_elem_of_lookup_2. }
    apply dict_keys_lookup in Hc as [v Hv]. exists v. split; [done |].
    by rewrite (project_lookup _ _ _ _ Hj), Hv.
Qed.

(** *** The file name typed at the prompt *)

Lemma ends_with_app (suffix x : string) :
  DetailById.ends_with suffix (x +:+ suffix) = true.
Proof.
  induction x as [| a x IH].
  - change ("" +:+ suffix) with suffix.
    destruct suffix; simpl; by rewrite ?bool_decide_eq_true_2.
  - change (String a x +:+ suffix) with (String a (x +:+ suffix)).
    simpl. rewrite IH. apply orb_true_r.
Qed.

(** The name passed to [save_to_csv] is empty (auto-generated name)
    exactly when the user typed nothing but whitespace; otherwise it ends
    in [.csv], and a typed name that already does is passed as typed
    (stripped), without a second extension. *)
Theorem custom_name_extension (typed : string) :
  let name := DetailById.custom_name typed in
  (name = "" <-> strip typed = "")
  /\ (name = "" \/ DetailById.ends_with ".csv" name = true)
  /\ (DetailById.ends_with ".csv" (strip typed) = true ->
      name = strip typed).
Proof.
  unfold DetailById.custom_name. simpl.
  destruct (decide (strip typed = "")) as [-> | Hne].
  { by split_and!; [| left |]. }
  rewrite bool_decide_eq_false_2 by done. simpl.
  destruct (DetailById.ends_with ".csv" (strip typed)) eqn:He; simpl.
  - split_and!; [done | by right | done].
  - split_and!; [| right; apply ends_with_app | done].
    split; [| done]. by destruct (strip typed).
Qed.

(** * script.py: searching the loaded users *)

Lemma is_prefix_substring (p s : string) :
  is_prefix p s = true -> is_substring p s = true.
Proof. intros H. destruct s; simpl; by rewrite H. Qed.

Lemma is_substring_empty (s : string) : is_substring "" s = true.
Proof. by destruct s. Qed.

Lemma matching_spec (lower : string -> string) (test : string -> bool)
    (users ms : list value) :
  Search.matching lower test users = Ok ms ->
  ms `sublist_of` users
  /\ forall user,
       user ∈ ms
       <-> user ∈ users
           /\ exists name, Search.username_lower lower user = Ok name
                /\ test name = true.
Proof.
  revert ms. induction users as [| user users IH]; intros ms; simpl.
  - intros [= <-]. split; [done |]. intros user. split.
    + by intros ?%elem_of_nil.
    + by intros [?%elem_of_nil _].
  - destruct (Search.username_lower lower user) as [name |] eqn:Hname;
      simpl; [| done].
    destruct (Search.matching lower test users) as [ms' |]; simpl; [| done].
    destruct (IH ms' eq_refl) as [Hsub Hiff].
    destruct (test name) eqn:Htest; intros [= <-].
    + split; [by apply sublist_skip |].
      intros user'. rewrite !elem_of_cons, Hiff. split.
      * intros [-> | (? & ?)]; [split; [by left | by eauto] |].
        split; [by right | done].
      * intros ([-> | ?] & Hn); [by left | right; by split].
    + split; [by apply sublist_cons |].
      intros user'. rewrite elem_of_cons, Hiff. split.
      * intros (? & ?). split; [by right | done].
      * intros ([-> | ?] & name' & Hn & Ht); [| by eauto].
        rewrite Hname in Hn. injection Hn as <-. congruence.
Qed.

Lemma matching_filter (lower : string -> string) (test : string -> bool)
    (users ms : list value) :
  Search.matching lower test users = Ok ms ->
  ms = filter (fun user => Search.passes lower test user) users
  /\ Forall (fun user => raised (Search.username_lower lower user) = false)
       users.
Proof.
  revert ms. induction users as [| user users IH]; intros ms; simpl.
  - by intros [= <-].
  - destruct (Search.username_lower lower user) as [name |] eqn:Hname;
      simpl; [| done].
    destruct (Search.matching lower test users) as [ms' |]; simpl; [| done].
    destruct (IH ms' eq_refl) as [-> Hall].
    intros [= <-]. split; [| constructor; [cbv beta; by rewrite Hname | done]].
    assert (Hp : Search.passes lower test user = test name).
    { unfold Search.passes. by rewrite Hname. }
    rewrite filter_cons, Hp. destruct (test name); by case_decide.
Qed.

(** [search], when it returns, returns the list of loaded users filtered
    by "the lowered name contains the lowered query": the users that
    pass, each as loaded, as often as loaded and in the order loaded, and
    no other; every loaded user then has a name that can be lowered; with
    an empty query the result is the whole list. *)
Theorem search_filters (lower : string -> string) (users ms : list value)
    (query : string) :
  Search.search lower users query = Ok ms ->
  ms `sublist_of` users
  /\ (forall user,
        user ∈ ms
        <-> user ∈ users
            /\ exists name, Search.username_lower lower user = Ok name
                 /\ is_substring (lower query) name = true)
  /\ (lower query = "" -> ms = users)
  /\ ms = filter (fun user =>
                    Search.passes lower (is_substring (lower query)) user)
                 users
  /\ Forall (fun user => raised (Search.username_lower lower user) = false)
       users.
Proof.
  unfold Search.search. intros H.
  destruct (matching_spec _ _ _ _ H) as [Hsub Hiff].
  destruct (matching_filter _ _ _ _ H) as [Hfilter Hall].
  split_and!; [done | done | | done | done].
  intros Hq. rewrite Hq in H. clear -H. revert ms H.
  induction users as [| user users IH]; intros ms; simpl.
  - by intros [= <-].
  - destruct (Search.username_lower lower user) as [name |]; simpl;
      [| done].
    destruct (Search.matching lower (is_substring "") users) as [ms' |];
      simpl; [| done].
    rewrite is_substring_empty. intros [= <-]. f_equal. by apply IH.
Qed.

Lemma search_filters_witness :
  Search.search Examples.ascii_lower Examples.users "LIC"
  = Ok [VDict [("rank", VStr "1"); ("username", VStr "Alice")];
        VDict [("rank", VStr "3"); ("username", VStr "Malice")]]
  /\ [VDict [("rank", VStr "1"); ("username", VStr "Alice")];
      VDict [("rank", VStr "3"); ("username", VStr "Malice")]]
     `sublist_of` Examples.users.
Proof.
  split; [reflexivity |].
  exact (proj1 (search_filters Examples.ascii_lower Examples.users _ "LIC"
                  eq_refl)).
Defined.

(** Every user [search_starts_with] finds, [search] finds too, for the
    same query, and in the same relative order. *)
Theorem starts_with_within_search (lower : string -> string)
    (users ms : list value) (query : string) :
  Search.search_starts_with lower users query = Ok ms ->
  exists ms',
    Search.search lower users query = Ok ms' /\ ms `sublist_of` ms'.
Proof.
  unfold Search.search_starts_with, Search.search. revert ms.
  induction users as [| user users IH]; intros ms; simpl.
  - intros [= <-]. by exists [].
  - destruct (Search.username_lower lower user) as [name |]; simpl;
      [| done].
    destruct (Search.matching lower (is_prefix (lower query)) users)
      as [ms0 |]; simpl; [| done].
    destruct (IH ms0 eq_refl) as (ms' & -> & Hsub). simpl.
    destruct (is_prefix (lower query) name) eqn:Hp; intros [= <-].
    + rewrite (is_prefix_substring _ _ Hp). eexists. split; [done |].
      by apply sublist_skip.
    + destruct (is_substring (lower query) name); eexists;
        (split; [done |]); [by apply sublist_cons | done].
Qed.

Lemma starts_with_within_search_witness :
  Search.search_starts_with Examples.ascii_lower Examples.users "Al"
  = Ok [VDict [("rank", VStr "1"); ("username", VStr "Alice")]]
  /\ exists ms',
       Search.search Examples.ascii_lower Examples.users "Al" = Ok ms'.
Proof.
  split; [reflexivity |].
  destruct (starts_with_within_search Examples.ascii_lower Examples.users
              _ "Al" eq_refl) as (ms' & Hms' & _).
  by exists ms'.
Defined.

(** * script.py: exporting matches as CSV *)

Lemma to_lines_dicts (fieldnames : list string) (ds : list dict) :
  match mapM (Search.to_line fieldnames) (VDict <$> ds) with
  | Ok ls =>
      ls = Csv.project fieldnames <$> ds
      /\ Forall (fun d => forall k, k ∈ dict_keys d -> k ∈ fieldnames) ds
  | Raise e =>
      e = ValueError
      /\ ~ Forall (fun d => forall k, k ∈ dict_keys d -> k ∈ fieldnames) ds
  end.
Proof.
  induction ds as [| d ds IH]; [done |].
  change (mapM (Search.to_line fieldnames) (VDict <$> d :: ds))
    with (y ← Csv.dict_to_list fieldnames d;
          k ← mapM (Search.to_line fieldnames) (VDict <$> ds); Ok (y :: k)).
  unfold Csv.dict_to_list.
  destruct (forallb (fun k => bool_decide (k ∈ fieldnames)) (dict_keys d))
    eqn:Hd; simpl.
  - assert (Hd' : forall k, k ∈ dict_keys d -> k ∈ fieldnames).
    { intros k Hk%list_elem_of_In.
      rewrite forallb_forall in Hd.
      by apply (bool_decide_eq_true_1 (k ∈ fieldnames)), Hd. }
    destruct (mapM (Search.to_line fieldnames) (VDict <$> ds)) as [ls | e];
      simpl.
    + destruct IH as [-> Hall]. split; [done | by constructor].
    + destruct IH as [-> Hnot]. split; [done |].
      intros Hall. apply Hnot. by inversion Hall.
  - split; [done |]. intros Hall. inversion Hall as [| ? ? Hd' _]; subst.
    assert (Htrue : forallb (fun k => bool_decide (k ∈ fieldnames))
                      (dict_keys d) = true); [| congruence].
    apply forallb_forall. intros k Hk%list_elem_of_In.
    by apply bool_decide_eq_true_2, Hd'.
Qed.

(** The CSV export takes its columns from the first match alone, in that
    match's own key order (nothing is sorted here).  When no match has a
    key the first one lacks, every match gets its line, with the empty
    placeholder for the keys it lacks; as soon as one match has a key the
    first one lacks, the export ends in [ValueError]. *)
Theorem export_csv_first_match (first : dict) (rest : list dict) :
  let matches := first :: rest in
  let fits (d : dict) := forall k, k ∈ dict_keys d -> k ∈ dict_keys first in
  (Forall fits rest ->
   Search.export_csv (VDict <$> matches)
   = Ok (Csv.Table (dict_keys first)
           (Csv.project (dict_keys first) <$> matches)))
  /\ (~ Forall fits rest ->
      Search.export_csv (VDict <$> matches) = Raise ValueError).
Proof.
  intros matches fits. unfold Search.export_csv.
  change (VDict <$> matches) with (VDict first :: (VDict <$> rest)).
  cbn [Search.keys mbind result_bind].
  change (VDict first :: (VDict <$> rest)) with (VDict <$> matches).
  pose proof (to_lines_dicts (dict_keys first) matches) as Hlines.
  assert (Hfirst : Forall fits matches <-> Forall fits rest).
  { subst matches. rewrite Forall_cons. unfold fits at 1. tauto. }
  destruct (mapM (Search.to_line (dict_keys first)) (VDict <$> matches))
    as [ls | e]; simpl.
  - destruct Hlines as [-> Hall]. split; [done |].
    intros Hnot. exfalso. by apply Hnot, Hfirst.
  - destruct Hlines as [-> Hnot]. split; [| done].
    intros Hall. exfalso. by apply Hnot, Hfirst.
Qed.

Lemma export_csv_first_match_witness :
  Search.export_csv Examples.users
  = Ok (Csv.Table ["rank"; "username"]
          [[VStr "1"; VStr "Alice"]; [VStr "2"; VStr "bob"];
           [VStr "3"; VStr "Malice"]]).
Proof.
  apply (proj1 (export_csv_first_match
                  [("rank", VStr "1"); ("username", VStr "Alice")]
                  [[("rank", VStr "2"); ("username", VStr "bob")];
                   [("rank", VStr "3"); ("username", VStr "Malice")]])).
  apply Forall_forall. intros d Hd.
  repeat (apply elem_of_cons in Hd as [-> | Hd]; [by intros k Hk |]).
  by apply elem_of_nil in Hd.
Defined.

(** * user_school_leetcode_fetcher.py: what a good answer yields *)

(** For an answer with a good status whose [matchedUser] is a non-empty
    object, [fetch_user] reports the user name and the school of the
    profile, each empty when absent.  A profile that is present but not an
    object (such as [null]) makes the whole lookup fall back to the
    placeholder: the user name is then empty too. *)
Theorem fetch_user_profile (status_code : Z) (body d m : dict)
    (user_slug : string) :
  ~ (400 <= status_code < 600) ->
  dict_lookup body "data" = Some (VDict d) ->
  dict_lookup d "matchedUser" = Some (VDict m) ->
  m <> [] ->
  let username := default (VStr "") (dict_lookup m "username") in
  SchoolFetcher.fetch_user (Response status_code (Some (VDict body)))
    user_slug
  = match dict_lookup m "profile" with
    | None =>
        [("user_slug", VStr user_slug); ("username", username);
         ("school", VStr "")]
    | Some (VDict profile) =>
        [("user_slug", VStr user_slug); ("username", username);
         ("school", default (VStr "") (dict_lookup profile "school"))]
    | Some _ => SchoolFetcher.placeholder user_slug
    end.
Proof.
  intros Hstatus Hd Hm Hne username.
  unfold SchoolFetcher.fetch_user, SchoolFetcher.fetch_user_try,
    SchoolFetcher.matched_user, raise_for_status. simpl.
  assert (Hs : (400 <=? status_code) && (status_code <? 600) = false).
  { apply andb_false_iff.
    destruct (decide (400 <= status_code)); [right | left]; lia. }
  rewrite Hs. simpl. rewrite Hd. simpl. rewrite Hm. simpl.
  assert (Ht : negb (bool_decide (length m = 0%nat)) = true).
  { destruct m; [done | done]. }
  rewrite Ht. simpl.
  by destruct (dict_lookup m "profile") as [[| | | | |] |].
Qed.

Lemma fetch_user_profile_witness :
  SchoolFetcher.fetch_user (Examples.found Examples.alice) "a"
  = [("user_slug", VStr "a"); ("username", VStr "alice");
     ("school", VStr "MIT")].
Proof.
  apply (fetch_user_profile 200
           [("data", VDict [("matchedUser", Examples.alice)])]
           [("matchedUser", Examples.alice)]
           [("username", VStr "alice");
            ("profile", VDict [("school", VStr "MIT")])] "a");
    [lia | reflexivity | reflexivity | discriminate].
Defined.
